(** * docx_to_md: Word paragraphs and tables rendered as Markdown

    A shallow embedding of [src/docx_to_md.py] and the properties of its
    style classifier, of its document renderer and of its batch driver.

    Python strings are modelled by [string]: a sequence of code points
    below 256 (Latin-1).  On that range [str.lower] and [str.strip] act
    character by character, and they are written out below as CPython
    defines them.  The document tree that python-docx hands to the
    program is modelled by records that carry the attributes the program
    reads ([paragraph.text], [paragraph.style], [style.name],
    [table.rows], [row.cells], [cell.text]). *)

From Stdlib Require Import Bool Arith ZArith Lia List Ascii String DecimalString.
Import ListNotations.

Local Open Scope list_scope.
Local Open Scope string_scope.

(** ** Python string primitives *)

Module PyStr.

(** [str.lower] on one code point below 256: A-Z, and the upper-case
    letters of the Latin-1 supplement (0xC0-0xD6, 0xD8-0xDE), move up by
    32; every other code point is left alone. *)
Definition lower_char (c : ascii) : ascii :=
  let n := nat_of_ascii c in
  if (((65 <=? n) && (n <=? 90)) || ((192 <=? n) && (n <=? 214))
      || ((216 <=? n) && (n <=? 222)))%nat
  then ascii_of_nat (n + 32) else c.

Fixpoint lower (s : string) : string :=
  match s with
  | EmptyString => EmptyString
  | String c r => String (lower_char c) (lower r)
  end.

(** The code points below 256 that [str.strip] (without argument) removes:
    0x09-0x0D, 0x1C-0x1F, space, 0x85 and 0xA0. *)
Definition is_space (c : ascii) : bool :=
  let n := nat_of_ascii c in
  (((9 <=? n) && (n <=? 13)) || ((28 <=? n) && (n <=? 32))
   || (n =? 133) || (n =? 160))%nat.

Definition is_empty (s : string) : bool :=
  match s with EmptyString => true | String _ _ => false end.

Fixpoint lstrip (s : string) : string :=
  match s with
  | EmptyString => EmptyString
  | String c r => if is_space c then lstrip r else s
  end.

Fixpoint rstrip (s : string) : string :=
  match s with
  | EmptyString => EmptyString
  | String c r =>
      let r' := rstrip r in
      if is_empty r' && is_space c then EmptyString else String c r'
  end.

(** [s.strip()] *)
Definition strip (s : string) : string := rstrip (lstrip s).

(** [needle in hay] *)
Fixpoint isin (needle hay : string) : bool :=
  prefix needle hay
  || match hay with
     | EmptyString => false
     | String _ r => isin needle r
     end.

(** [hay.startswith(p)] *)
Definition startswith (hay p : string) : bool := prefix p hay.

(** [s * n] *)
Fixpoint repeat_str (s : string) (n : nat) : string :=
  match n with
  | O => EmptyString
  | S k => s ++ repeat_str s k
  end.

(** [s.replace("\n", " ")]: the pattern is one character long, so the
    replacement is character by character. *)
Definition newline : ascii := ascii_of_nat 10.
Definition space : ascii := ascii_of_nat 32.

Definition nl_to_space (c : ascii) : ascii :=
  if Ascii.eqb c newline then space else c.

Fixpoint replace_newlines (s : string) : string :=
  match s with
  | EmptyString => EmptyString
  | String c r => String (nl_to_space c) (replace_newlines r)
  end.

(** [s.replace(old, new)] for a non-empty [old], as the program calls
    it: the occurrences of [old] are found from the left and do not
    overlap.  [skip] counts the characters of an occurrence that are
    still to be dropped. *)
Fixpoint replace_from (old new : string) (skip : nat) (s : string) : string :=
  match s with
  | EmptyString => EmptyString
  | String c r =>
      match skip with
      | S k => replace_from old new k r
      | O =>
          if prefix old s
          then new ++ replace_from old new (String.length old - 1) r
          else String c (replace_from old new 0 r)
      end
  end.

Definition replace (s old new : string) : string := replace_from old new 0 s.

(** [s.encode("utf-8")] for code points below 256: one byte below 128,
    two bytes from 128 on. *)
Definition utf8_char (c : ascii) : string :=
  let n := nat_of_ascii c in
  if (n <? 128)%nat then String c EmptyString
  else String (ascii_of_nat (192 + n / 64))
         (String (ascii_of_nat (128 + n mod 64)) EmptyString).

Fixpoint encode_utf8 (s : string) : string :=
  match s with
  | EmptyString => EmptyString
  | String c r => utf8_char c ++ encode_utf8 r
  end.

(** [sep.join(parts)] *)
Definition join (sep : string) (parts : list string) : string :=
  String.concat sep parts.

(** [f"{i}"] for a non-negative integer. *)
Definition fmt_int (i : nat) : string :=
  NilEmpty.string_of_uint (Nat.to_uint i).

(** Every character of a string satisfies a test. *)
Fixpoint all_chars (f : ascii -> bool) (s : string) : bool :=
  match s with
  | EmptyString => true
  | String c r => f c && all_chars f r
  end.

(** The number of occurrences of a character. *)
Fixpoint count_char (c : ascii) (s : string) : nat :=
  match s with
  | EmptyString => 0
  | String d r => (if Ascii.eqb c d then 1 else 0) + count_char c r
  end.

End PyStr.
Import PyStr.

(** ** The document tree *)

Record Style := { name : option string }.

Record Paragraph := { text : string; style : option Style }.

(** [cell.text] *)
Record Cell := { cell_text : string }.

Record Row := { cells : list Cell }.

Record Table := { rows : list Row }.

Record Document := { paragraphs : list Paragraph; tables : list Table }.

(** ** The style classifier *)

(** [x or ""] for an optional string [x]. *)
Definition or_empty (x : option string) : string :=
  match x with
  | Some n => if is_empty n then "" else n
  | None => ""
  end.

(** [get_style_name]: [None] when the paragraph has no style; the
    lower-cased style name when it contains "heading" or starts with
    "title"; "normal" otherwise.  A style whose name is [None] counts as
    the empty name ([paragraph.style.name or ""]). *)
Definition get_style_name (paragraph : Paragraph) : option string :=
  match style paragraph with
  | None => None
  | Some st =>
      let name := lower (or_empty (name st)) in
      if isin "heading" name || startswith name "title"
      then Some name
      else Some "normal"
  end.

(** The test of the loop body of [heading_level] for one [i]. *)
Definition numbered (name : string) (i : nat) : bool :=
  isin ("heading " ++ fmt_int i) name || isin ("heading" ++ fmt_int i) name.

(** [for i in range(1, 10): if ...: return min(i, 6)]; [None] when the
    loop ends without returning. *)
Fixpoint heading_loop (name : string) (range : list nat) : option nat :=
  match range with
  | [] => None
  | i :: rest =>
      if numbered name i then Some (Nat.min i 6) else heading_loop name rest
  end.

Definition heading_level (style_name : option string) : nat :=
  match style_name with
  | None => 0
  | Some style_name =>
      if is_empty style_name then 0
      else
        let name := lower style_name in
        if isin "title" name then 1
        else
          match heading_loop name (seq 1 9) with
          | Some level => level
          | None => if isin "heading" name then 2 else 0
          end
  end.

(** The classifier of a paragraph, as [paragraph_to_md] composes it. *)
Definition classify (paragraph : Paragraph) : nat :=
  heading_level (get_style_name paragraph).

Definition styled (label : string) (body : string) : Paragraph :=
  {| text := body; style := Some {| name := Some label |} |}.

(** ** The document renderer *)

(** The renderer builds one Python list, [lines], in place.  A
    computation reads and updates that list and may raise (an
    [IndexError] is the only exception the renderer's own code can
    raise); [None] stands for a raised exception. *)
Module Lines.

Definition M (A : Type) : Type := list string -> option (A * list string).

Definition ret {A} (a : A) : M A := fun lines => Some (a, lines).

Definition bind {A B} (m : M A) (k : A -> M B) : M B :=
  fun lines =>
    match m lines with
    | Some (a, lines') => k a lines'
    | None => None
    end.

Definition raise {A} : M A := fun _ => None.

(** [lines.append(x)] *)
Definition append (x : string) : M unit :=
  fun lines => Some (tt, (lines ++ [x])%list).

(** [lines.extend(xs)] *)
Definition extend (xs : list string) : M unit :=
  fun lines => Some (tt, (lines ++ xs)%list).

(** [list.insert(i, x)] on a Python list: a negative index counts from
    the end, and an index outside the list is clipped to its ends. *)
Definition py_insert {A} (l : list A) (i : Z) (x : A) : list A :=
  let n := Z.of_nat (List.length l) in
  let i := if (i <? 0)%Z then (i + n)%Z else i in
  let i := if (i <? 0)%Z then 0%Z else i in
  let i := if (n <? i)%Z then n else i in
  (firstn (Z.to_nat i) l ++ x :: skipn (Z.to_nat i) l)%list.

(** [lines.insert(i, x)] *)
Definition insert (i : Z) (x : string) : M unit :=
  fun lines => Some (tt, py_insert lines i x).

(** [xs[i]] for [0 <= i]: raises when [i] is out of range. *)
Definition getitem {A} (xs : list A) (i : nat) : M A :=
  match nth_error xs i with
  | Some x => ret x
  | None => raise
  end.

(** [for x in xs: body(x)] *)
Fixpoint for_each {A} (body : A -> M unit) (xs : list A) : M unit :=
  match xs with
  | [] => ret tt
  | x :: rest => bind (body x) (fun _ => for_each body rest)
  end.

End Lines.
Import Lines.

Notation "x <- m ;; k" := (bind m (fun x => k))
  (at level 61, m at next level, right associativity).
Notation "m ;; k" := (bind m (fun _ => k))
  (at level 61, right associativity).

(** The separator of [join] in [docx_to_md]: two newlines. *)
Definition blank_sep : string := String newline (String newline EmptyString).

Definition paragraph_to_md (paragraph : Paragraph) : string :=
  let text := strip (text paragraph) in
  if is_empty text then ""
  else
    let style_name := get_style_name paragraph in
    let level := heading_level style_name in
    if (1 <=? level)%nat then repeat_str "#" level ++ " " ++ text
    else text.

(** The text of one cell in a row line:
    [cell.text.strip().replace("\n", " ")]. *)
Definition cell_md (cell : Cell) : string :=
  replace_newlines (strip (cell_text cell)).

(** The line of one table row. *)
Definition row_line (row : Row) : string :=
  "| " ++ join " | " (map cell_md (cells row)) ++ " |".

(** ["|" + " --- |" * num_cols] *)
Definition separator (num_cols : nat) : string :=
  "|" ++ repeat_str " --- |" num_cols.

(** The body of the first loop of [docx_to_md]. *)
Definition paragraph_step (para : Paragraph) : M unit :=
  let line := paragraph_to_md para in
  if negb (is_empty line) then append line else ret tt.

(** The body of the second loop of [docx_to_md].  The inner loop appends
    one row line per row to the local list [rows], which is [map] over
    [table.rows]. *)
Definition table_step (table : Table) : M unit :=
  let rows_ := map row_line (rows table) in
  if negb (Nat.eqb (List.length rows_) 0) then
    append "" ;;
    extend rows_ ;;
    (if (2 <=? List.length rows_)%nat then
       row0 <- getitem (rows table) 0 ;;
       let num_cols := List.length (cells row0) in
       insert (- Z.of_nat (List.length rows_) + 1) (separator num_cols)
     else ret tt) ;;
    append ""
  else ret tt.

(** [docx_to_md], applied to the document that [Document(docx_path)]
    returns. *)
Definition docx_to_md (doc : Document) : option string :=
  match (for_each paragraph_step (paragraphs doc) ;;
         for_each table_step (tables doc)) [] with
  | Some (_, lines) => Some (join blank_sep lines)
  | None => None
  end.

(** ** The batch driver *)

(** [main] works on the files of one directory and on standard output.
    The directory maps a file name to the bytes of the file, the newest
    binding of a name first; [stdout] holds the printed lines. *)
Record World := { files : list (string * string); stdout : list string }.

Inductive Outcome := Returned | Raised.

Fixpoint lookup (name : string) (dir : list (string * string)) : option string :=
  match dir with
  | [] => None
  | (n, bytes) :: rest => if String.eqb name n then Some bytes else lookup name rest
  end.

(** [print(line)] *)
Definition print (line : string) (w : World) : World :=
  {| files := files w; stdout := (stdout w ++ [line])%list |}.

(** [path.write_text(content, encoding="utf-8")] in a writable
    directory. *)
Definition write_text (name content : string) (w : World) : World :=
  {| files := (name, encode_utf8 content) :: files w; stdout := stdout w |}.

(** [name.replace(".docx", ".md")] *)
Definition md_name (name : string) : string := replace name ".docx" ".md".

Definition main_names : list string :=
  ["Senior_Lead_Architecture_Interview_Prep_Part1.docx";
   "Senior_Lead_Architecture_Interview_Prep_Part2.docx";
   "Senior_Lead_Architecture_Interview_Prep_Part3.docx"].

Section Main.

(** python-docx's reader, from the bytes of a file to the document tree;
    [None] when [Document(docx_path)] raises. *)
Variable open_docx : string -> option Document.

(** The body of the loop of [main] for one name.  An exception leaves
    the loop, and [main], with the world as it is then. *)
Definition main_body (name : string) (w : World) : Outcome * World :=
  match lookup name (files w) with
  | None => (Returned, print ("Skip (not found): " ++ name) w)
  | Some bytes =>
      let md_name := md_name name in
      match open_docx bytes with
      | None => (Raised, w)
      | Some doc =>
          match docx_to_md doc with
          | None => (Raised, w)
          | Some md_content =>
              (Returned,
               print ("Created: " ++ md_name)
                 (write_text md_name md_content w))
          end
      end
  end.

Fixpoint main_loop (names : list string) (w : World) : Outcome * World :=
  match names with
  | [] => (Returned, w)
  | name :: rest =>
      match main_body name w with
      | (Returned, w') => main_loop rest w'
      | (Raised, w') => (Raised, w')
      end
  end.

Definition main (w : World) : Outcome * World := main_loop main_names w.

(** The Markdown that a file's bytes render to. *)
Definition render_bytes (bytes : string) : option string :=
  match open_docx bytes with
  | Some doc => docx_to_md doc
  | None => None
  end.




End Main.


(** A reader for examples: it opens one byte string, as a document of
    one title paragraph, and raises on every other. *)
Definition sample_reader (bytes : string) : option Document :=
  if String.eqb bytes "PK-hello"
  then Some {| paragraphs := [styled "Title" "Hello"]; tables := [] |}
  else None.

(** ** The renderer as the specification words it *)

(** The lines one paragraph contributes: none when its trimmed text is
    empty; else the marker line of a heading, or the trimmed text. *)
Definition paragraph_lines (para : Paragraph) : list string :=
  let t := strip (text para) in
  if is_empty t then []
  else
    let level := classify para in
    if (1 <=? level)%nat then [repeat_str "#" level ++ " " ++ t] else [t].

(** The block one table contributes: nothing without rows; a blank unit,
    the row lines and a blank unit otherwise, with a separator after the
    first row line when there are two rows or more. *)
Definition table_block (table : Table) : list string :=
  match rows table with
  | [] => []
  | [row0] => [""; row_line row0; ""]
  | row0 :: more =>
      ([""; row_line row0; separator (List.length (cells row0))]
       ++ map row_line more ++ [""])%list
  end.

(** The number of columns of a row or separator line: its delimiters,
    less the one that closes the line. *)
Definition column_count (line : string) : nat :=
  count_char "|"%char line - 1.

Definition mk_row (texts : list string) : Row :=
  {| cells := map (fun t => {| cell_text := t |}) texts |}.

Definition mk_table (grid : list (list string)) : Table :=
  {| rows := map mk_row grid |}.

(** ** Auxiliary definitions for the statements *)

(** The style label of a paragraph: absent when the paragraph has no
    style or the style has no name. *)
Definition label_of (para : Paragraph) : option string :=
  match style para with
  | None => None
  | Some st => name st
  end.

(** The part of [heading_level] that follows the lower-casing. *)
Definition level_of_name (name : string) : nat :=
  if isin "title" name then 1
  else
    match heading_loop name (seq 1 9) with
    | Some level => level
    | None => if isin "heading" name then 2 else 0
    end.

(** No [i] of the range passes the test of the loop body. *)
Definition none_numbered (name : string) (range : list nat) : bool :=
  forallb (fun i => negb (numbered name i)) range.

(** The first and the last character of a string. *)
Definition first_char (s : string) : option ascii :=
  match s with
  | EmptyString => None
  | String c _ => Some c
  end.

Fixpoint last_char (s : string) : option ascii :=
  match s with
  | EmptyString => None
  | String c r =>
      match last_char r with
      | None => Some c
      | Some d => Some d
      end
  end.

Definition not_space (c : option ascii) : bool :=
  match c with
  | None => true
  | Some c => negb (is_space c)
  end.

(** A string is trimmed when neither end is a white-space character. *)
Definition trimmed (s : string) : bool :=
  not_space (first_char s) && not_space (last_char s).

(** The column delimiter of a table line. *)
Definition pipe : ascii := "|"%char.

(** Deleting every white-space character. *)
Fixpoint remove_spaces (s : string) : string :=
  match s with
  | EmptyString => EmptyString
  | String c r =>
      if is_space c then remove_spaces r else String c (remove_spaces r)
  end.

(** The numbered-heading rule as the specification words it: the label
    matches "heading N" or "headingN", case-insensitive and
    whitespace-insensitive. *)
Definition spec_numbered (label : string) (N : nat) : bool :=
  isin ("heading" ++ fmt_int N) (remove_spaces (lower label)).

Example fmt_int_7 : fmt_int 7 = "7".
Proof. reflexivity. Qed.

Example heading_level_h3 : heading_level (Some "Heading 3") = 3.
Proof. reflexivity. Qed.

Example heading_level_h9 : heading_level (Some "heading 9") = 6.
Proof. reflexivity. Qed.

Example classify_subtitle : classify (styled "Subtitle" "x") = 0.
Proof. reflexivity. Qed.

Example py_insert_neg : py_insert [1; 2; 3; 4] (-2) 9 = [1; 2; 9; 3; 4].
Proof. reflexivity. Qed.

Example py_insert_low : py_insert [1; 2] (-5) 9 = [9; 1; 2].
Proof. reflexivity. Qed.

Example py_insert_high : py_insert [1; 2] 7 9 = [1; 2; 9].
Proof. reflexivity. Qed.

Example md_name_part1 :
  md_name "Senior_Lead_Architecture_Interview_Prep_Part1.docx"
  = "Senior_Lead_Architecture_Interview_Prep_Part1.md".
Proof. reflexivity. Qed.

Example replace_all_occurrences : replace "a.docx.docx" ".docx" ".md" = "a.md.md".
Proof. reflexivity. Qed.

Example encode_utf8_latin1 :
  encode_utf8 (String (ascii_of_nat 233) "!")
  = String (ascii_of_nat 195) (String (ascii_of_nat 169) "!").
Proof. reflexivity. Qed.



(** ** Facts about the string primitives *)

Lemma lower_char_idem (c : ascii) : lower_char (lower_char c) = lower_char c.
Proof. destruct c as [[] [] [] [] [] [] [] []]; reflexivity. Qed.

Lemma lower_idem (s : string) : lower (lower s) = lower s.
Proof.
  induction s as [|c r IH]; simpl; [reflexivity|].
  now rewrite lower_char_idem, IH.
Qed.

Lemma is_empty_lower (s : string) : is_empty (lower s) = is_empty s.
Proof. now destruct s. Qed.

Lemma is_empty_true (s : string) : is_empty s = true <-> s = "".
Proof. destruct s; simpl; split; congruence. Qed.

Lemma isin_startswith (p hay : string) :
  startswith hay p = true -> isin p hay = true.
Proof.
  unfold startswith; intros H; destruct hay; simpl in *; now rewrite H.
Qed.

Section Strip.

Lemma lstrip_split (s : string) :
  exists pre, s = pre ++ lstrip s /\ all_chars is_space pre = true.
Proof.
  induction s as [|c r [pre [Heq Hpre]]]; [now exists ""|].
  simpl. destruct (is_space c) eqn:Hc.
  - exists (String c pre). simpl. rewrite Hc, Hpre. now rewrite <- Heq.
  - now exists "".
Qed.

Lemma rstrip_split (s : string) :
  exists post, s = rstrip s ++ post /\ all_chars is_space post = true.
Proof.
  induction s as [|c r [post [Heq Hpost]]]; [now exists ""|].
  simpl. destruct (is_empty (rstrip r) && is_space c) eqn:Hc.
  - apply andb_prop in Hc as [He Hc]. apply is_empty_true in He.
    rewrite He in Heq. simpl in Heq. subst post.
    exists (String c r). simpl. now rewrite Hc, Hpost.
  - exists post. simpl. now rewrite <- Heq.
Qed.

Lemma lstrip_first (s : string) : not_space (first_char (lstrip s)) = true.
Proof.
  induction s as [|c r IH]; [reflexivity|].
  simpl. destruct (is_space c) eqn:Hc; [exact IH|].
  simpl. now rewrite Hc.
Qed.

Lemma last_char_none (s : string) : last_char s = None -> s = "".
Proof.
  destruct s as [|c r]; [reflexivity|].
  simpl. destruct (last_char r); discriminate.
Qed.

Lemma rstrip_last (s : string) : not_space (last_char (rstrip s)) = true.
Proof.
  induction s as [|c r IH]; [reflexivity|].
  simpl. destruct (is_empty (rstrip r) && is_space c) eqn:Hc; [reflexivity|].
  simpl. destruct (last_char (rstrip r)) as [d|] eqn:Hl; [exact IH|].
  apply last_char_none in Hl. rewrite Hl in Hc. simpl in Hc.
  simpl. now rewrite Hc.
Qed.

Lemma rstrip_first (s : string) :
  not_space (first_char s) = true ->
  not_space (first_char (rstrip s)) = true.
Proof.
  destruct s as [|c r]; [reflexivity|].
  simpl. now destruct (is_empty (rstrip r) && is_space c).
Qed.

Lemma strip_trimmed (s : string) : trimmed (strip s) = true.
Proof.
  unfold trimmed, strip.
  rewrite rstrip_first by apply lstrip_first.
  now rewrite rstrip_last.
Qed.

Lemma append_assoc (a b c : string) : (a ++ b) ++ c = a ++ b ++ c.
Proof. induction a as [|x a IH]; simpl; congruence. Qed.

Lemma strip_split (s : string) :
  exists pre post,
    s = pre ++ strip s ++ post
    /\ all_chars is_space pre = true /\ all_chars is_space post = true.
Proof.
  destruct (lstrip_split s) as [pre [Hs Hpre]].
  destruct (rstrip_split (lstrip s)) as [post [Hl Hpost]].
  exists pre, post. unfold strip. now rewrite <- Hl.
Qed.

Lemma lstrip_all_space (s : string) :
  all_chars is_space (lstrip s) = all_chars is_space s.
Proof.
  induction s as [|c r IH]; [reflexivity|].
  simpl. destruct (is_space c) eqn:Hc; [exact IH|].
  simpl. now rewrite Hc.
Qed.

Lemma rstrip_empty (s : string) :
  is_empty (rstrip s) = all_chars is_space s.
Proof.
  induction s as [|c r IH]; [reflexivity|].
  simpl. rewrite <- IH.
  now destruct (is_empty (rstrip r)), (is_space c).
Qed.

(** The trimmed text is empty exactly when the text is white space
    only (the empty text included). *)
Lemma strip_empty (s : string) :
  is_empty (strip s) = all_chars is_space s.
Proof. unfold strip. now rewrite rstrip_empty, lstrip_all_space. Qed.

End Strip.

Section Replace.

Lemma replace_newlines_length (s : string) :
  String.length (replace_newlines s) = String.length s.
Proof. induction s as [|c r IH]; simpl; congruence. Qed.

Lemma replace_newlines_get (s : string) (i : nat) :
  get i (replace_newlines s) = option_map nl_to_space (get i s).
Proof.
  revert i. induction s as [|c r IH]; intros i; [reflexivity|].
  destruct i as [|i]; simpl; [reflexivity|apply IH].
Qed.

Lemma nl_to_space_not_newline (c : ascii) :
  Ascii.eqb newline (nl_to_space c) = false.
Proof.
  unfold nl_to_space. destruct (Ascii.eqb c newline) eqn:Hc; [reflexivity|].
  now rewrite Ascii.eqb_sym.
Qed.

Lemma replace_newlines_clean (s : string) :
  count_char newline (replace_newlines s) = 0.
Proof.
  induction s as [|c r IH]; [reflexivity|].
  cbn [replace_newlines count_char].
  now rewrite nl_to_space_not_newline, IH.
Qed.

Lemma count_char_app (c : ascii) (a b : string) :
  count_char c (a ++ b) = count_char c a + count_char c b.
Proof. induction a as [|x a IH]; simpl; [reflexivity|]. rewrite IH. lia. Qed.

Lemma count_char_join (c : ascii) (sep : string) (parts : list string) :
  count_char c sep = 0 ->
  Forall (fun part => count_char c part = 0) parts ->
  count_char c (join sep parts) = 0.
Proof.
  intros Hsep Hparts. unfold join.
  induction Hparts as [|x rest Hx Hrest IH]; [reflexivity|].
  destruct rest as [|y rest]; [exact Hx|].
  change (String.concat sep (x :: y :: rest))
    with (x ++ sep ++ String.concat sep (y :: rest)).
  rewrite !count_char_app, Hx, Hsep, IH. reflexivity.
Qed.

Lemma count_char_repeat (c : ascii) (s : string) (n : nat) :
  count_char c (repeat_str s n) = n * count_char c s.
Proof.
  induction n as [|n IH]; [reflexivity|].
  simpl. rewrite count_char_app, IH. reflexivity.
Qed.

End Replace.

(** ** Facts about the classifier *)

Lemma heading_level_Some (s : string) :
  heading_level (Some s) = if is_empty s then 0 else level_of_name (lower s).
Proof. reflexivity. Qed.

Lemma or_empty_Some (s : string) : or_empty (Some s) = s.
Proof. now destruct s. Qed.

Lemma heading_level_or_empty (lbl : option string) :
  heading_level lbl = heading_level (Some (or_empty lbl)).
Proof. destruct lbl as [[|c r]|]; reflexivity. Qed.

Lemma level_of_name_normal : level_of_name "normal" = 0.
Proof. reflexivity. Qed.

(** What the composition computes for a paragraph that has a style: the
    level of the lower-cased label when [get_style_name] keeps the label,
    and the level of "normal", which is 0, when it does not. *)
Lemma classify_styled (para : Paragraph) (st : Style) :
  style para = Some st ->
  classify para =
    let nm := lower (or_empty (name st)) in
    if isin "heading" nm || startswith nm "title"
    then level_of_name nm else 0.
Proof.
  intros Hst. unfold classify, get_style_name. rewrite Hst. cbv zeta.
  set (nm := lower (or_empty (name st))).
  destruct (isin "heading" nm || startswith nm "title") eqn:Hkeep.
  - rewrite heading_level_Some.
    destruct nm as [|c r] eqn:Hnm; [discriminate Hkeep|].
    cbn [is_empty]. rewrite <- Hnm. unfold nm. now rewrite lower_idem.
  - reflexivity.
Qed.

Lemma classify_unstyled (para : Paragraph) :
  style para = None -> classify para = 0.
Proof. intros H. unfold classify, get_style_name. now rewrite H. Qed.

Section Loop.

(** The lower-cased style name that the loop of [heading_level] scans. *)
Variable nm : string.

Lemma heading_loop_none (range : list nat) :
  none_numbered nm range = true -> heading_loop nm range = None.
Proof.
  induction range as [|i rest IH]; simpl; [reflexivity|].
  intros H. apply andb_prop in H as [Hi Hrest].
  apply negb_true_iff in Hi. rewrite Hi. now apply IH.
Qed.

Lemma heading_loop_first (before after : list nat) (i : nat) :
  none_numbered nm before = true ->
  numbered nm i = true ->
  heading_loop nm (before ++ i :: after) = Some (Nat.min i 6).
Proof.
  induction before as [|j rest IH]; simpl; intros Hb Hi.
  - now rewrite Hi.
  - apply andb_prop in Hb as [Hj Hrest].
    apply negb_true_iff in Hj. rewrite Hj. now apply IH.
Qed.

Lemma range_split (N : nat) :
  1 <= N <= 9 -> seq 1 9 = (seq 1 (N - 1) ++ N :: seq (S N) (9 - N))%list.
Proof.
  intros H.
  replace 9 with ((N - 1) + S (9 - N)) at 1 by lia.
  rewrite seq_app.
  replace (1 + (N - 1)) with N by lia.
  reflexivity.
Qed.

Lemma level_of_name_numbered (N : nat) :
  1 <= N <= 9 ->
  isin "title" nm = false ->
  none_numbered nm (seq 1 (N - 1)) = true ->
  numbered nm N = true ->
  level_of_name nm = Nat.min N 6.
Proof.
  intros HN Ht Hbefore Hnum. unfold level_of_name. rewrite Ht.
  rewrite (range_split N HN).
  now rewrite (heading_loop_first _ _ N Hbefore Hnum).
Qed.

End Loop.

Lemma prefix_app_l (a b hay : string) :
  prefix (a ++ b) hay = true -> prefix a hay = true.
Proof.
  revert hay. induction a as [|x a IH]; intros hay H.
  - now destruct hay.
  - destruct hay as [|y hay]; [discriminate H|].
    simpl in *. destruct (ascii_dec x y); [now apply IH|discriminate H].
Qed.

Lemma isin_app_l (a b hay : string) :
  isin (a ++ b) hay = true -> isin a hay = true.
Proof.
  induction hay as [|y hay IH]; intros H.
  - cbn [isin] in *. rewrite orb_false_r in *. now apply prefix_app_l in H.
  - cbn [isin] in *. apply orb_true_iff in H as [H|H].
    + apply prefix_app_l in H. now rewrite H.
    + rewrite (IH H). apply orb_true_r.
Qed.

Lemma numbered_isin_heading (nm : string) (i : nat) :
  numbered nm i = true -> isin "heading" nm = true.
Proof.
  unfold numbered. intros H. apply orb_true_iff in H as [H|H].
  - apply (isin_app_l "heading" (" " ++ fmt_int i)). exact H.
  - apply (isin_app_l "heading" (fmt_int i)). exact H.
Qed.

Lemma isin_nonempty (c : ascii) (p hay : string) :
  isin (String c p) hay = true -> is_empty hay = false.
Proof. destruct hay; [discriminate|reflexivity]. Qed.

Lemma not_isin_not_startswith (p hay : string) :
  isin p hay = false -> startswith hay p = false.
Proof.
  intros H. destruct (startswith hay p) eqn:Hs; [|reflexivity].
  apply isin_startswith in Hs. congruence.
Qed.

(** ** Facts about the renderer *)

Section Renderer.

(** [list.insert] at the negated length of a non-empty suffix puts the
    new element right before that suffix. *)
Lemma py_insert_before_suffix {A} (pre suf : list A) (x : A) :
  suf <> [] ->
  py_insert (pre ++ suf) (- Z.of_nat (List.length suf)) x
  = (pre ++ x :: suf)%list.
Proof.
  intros Hsuf. unfold py_insert.
  assert (0 < List.length suf) by (destruct suf; [congruence|simpl; lia]).
  rewrite length_app, Nat2Z.inj_add.
  destruct (Z.ltb_spec (- Z.of_nat (List.length suf)) 0) as [_|Hge]; [|lia].
  replace (- Z.of_nat (List.length suf)
           + (Z.of_nat (List.length pre) + Z.of_nat (List.length suf)))%Z
    with (Z.of_nat (List.length pre)) by lia.
  destruct (Z.ltb_spec (Z.of_nat (List.length pre)) 0) as [Hlt|_]; [lia|].
  destruct (Z.ltb_spec
              (Z.of_nat (List.length pre) + Z.of_nat (List.length suf))
              (Z.of_nat (List.length pre))) as [Hlt|_]; [lia|].
  rewrite Nat2Z.id.
  rewrite firstn_app, firstn_all, Nat.sub_diag, firstn_O, app_nil_r.
  rewrite skipn_app, skipn_all, Nat.sub_diag. reflexivity.
Qed.

Lemma for_each_app {A} (body : A -> M unit) (out : A -> list string) :
  (forall x lines, body x lines = Some (tt, (lines ++ out x)%list)) ->
  forall xs lines,
    for_each body xs lines = Some (tt, (lines ++ flat_map out xs)%list).
Proof.
  intros Hbody xs. induction xs as [|x rest IH]; intros lines; simpl.
  - now rewrite app_nil_r.
  - unfold bind. rewrite Hbody, IH. now rewrite <- app_assoc.
Qed.

Lemma paragraph_to_md_lines (para : Paragraph) :
  paragraph_lines para
  = if is_empty (paragraph_to_md para) then [] else [paragraph_to_md para].
Proof.
  unfold paragraph_lines, paragraph_to_md, classify.
  destruct (strip (text para)) as [|c r] eqn:Ht; [reflexivity|].
  cbn [is_empty].
  destruct (heading_level (get_style_name para)) as [|k]; reflexivity.
Qed.

Lemma paragraph_step_lines (para : Paragraph) (lines : list string) :
  paragraph_step para lines
  = Some (tt, (lines ++ paragraph_lines para)%list).
Proof.
  unfold paragraph_step. rewrite paragraph_to_md_lines.
  destruct (is_empty (paragraph_to_md para)); simpl.
  - unfold ret. now rewrite app_nil_r.
  - reflexivity.
Qed.

Lemma table_step_block (table : Table) (lines : list string) :
  table_step table lines = Some (tt, (lines ++ table_block table)%list).
Proof.
  unfold table_step, table_block.
  destruct (rows table) as [|row0 [|row1 more]].
  - simpl. unfold ret. now rewrite app_nil_r.
  - simpl. unfold bind, append, extend, ret. simpl.
    now rewrite <- !app_assoc.
  - cbn [map List.length Nat.eqb negb Nat.leb nth_error getitem].
    unfold bind, append, extend, insert, ret.
    replace (- Z.of_nat (S (S (List.length (map row_line more)))) + 1)%Z
      with (- Z.of_nat (List.length (row_line row1 :: map row_line more)))%Z
      by (cbn [List.length]; lia).
    change ((lines ++ [""]) ++ row_line row0 :: row_line row1
              :: map row_line more)%list
      with ((lines ++ [""]) ++ [row_line row0]
              ++ (row_line row1 :: map row_line more))%list.
    rewrite app_assoc, py_insert_before_suffix by discriminate.
    rewrite <- !app_assoc. reflexivity.
Qed.

(** [docx_to_md] never raises; its lines are the paragraphs' lines
    followed by the tables' blocks. *)
Lemma docx_to_md_lines (doc : Document) :
  docx_to_md doc
  = Some (join blank_sep
            (flat_map paragraph_lines (paragraphs doc)
             ++ flat_map table_block (tables doc))%list).
Proof.
  unfold docx_to_md, bind.
  rewrite (for_each_app paragraph_step paragraph_lines paragraph_step_lines).
  rewrite (for_each_app table_step table_block table_step_block).
  reflexivity.
Qed.

Lemma separator_columns (n : nat) : column_count (separator n) = n.
Proof.
  unfold column_count, separator.
  rewrite count_char_app, count_char_repeat. simpl. lia.
Qed.

Lemma row_line_clean (row : Row) : count_char newline (row_line row) = 0.
Proof.
  unfold row_line. rewrite !count_char_app.
  rewrite count_char_join; [reflexivity|reflexivity|].
  apply Forall_forall. intros part Hin.
  apply in_map_iff in Hin as [cell [<- _]].
  apply replace_newlines_clean.
Qed.

End Renderer.

Section Levels.

Variable nm : string.

Lemma heading_loop_bounds (range : list nat) (level : nat) :
  Forall (fun i => 1 <= i) range ->
  heading_loop nm range = Some level ->
  1 <= level <= 6.
Proof.
  intros Hrange. induction Hrange as [|i rest Hi _ IH]; simpl.
  - discriminate.
  - destruct (numbered nm i); [|exact IH].
    intros H. injection H as <-. lia.
Qed.

Lemma range_positive : Forall (fun i => 1 <= i) (seq 1 9).
Proof. apply Forall_forall. intros i Hi. apply in_seq in Hi. lia. Qed.

Lemma level_of_name_le : level_of_name nm <= 6.
Proof.
  unfold level_of_name. destruct (isin "title" nm); [lia|].
  destruct (heading_loop nm (seq 1 9)) as [level|] eqn:Hloop.
  - apply (heading_loop_bounds _ _ range_positive) in Hloop. lia.
  - destruct (isin "heading" nm); lia.
Qed.

Lemma level_of_name_kept :
  isin "heading" nm || startswith nm "title" = true ->
  1 <= level_of_name nm.
Proof.
  intros Hkeep. unfold level_of_name.
  destruct (isin "title" nm) eqn:Ht; [lia|].
  rewrite (not_isin_not_startswith _ _ Ht), orb_false_r in Hkeep.
  rewrite Hkeep.
  destruct (heading_loop nm (seq 1 9)) as [level|] eqn:Hloop; [|lia].
  apply (heading_loop_bounds _ _ range_positive) in Hloop. lia.
Qed.

Lemma heading_loop_without_heading (range : list nat) :
  isin "heading" nm = false -> heading_loop nm range = None.
Proof.
  intros Hh. induction range as [|i rest IH]; simpl; [reflexivity|].
  destruct (numbered nm i) eqn:Hi; [|exact IH].
  apply numbered_isin_heading in Hi. congruence.
Qed.

Lemma level_of_name_plain :
  isin "title" nm = false -> isin "heading" nm = false ->
  level_of_name nm = 0.
Proof.
  intros Ht Hh. unfold level_of_name.
  now rewrite Ht, (heading_loop_without_heading _ Hh), Hh.
Qed.

End Levels.

Section Literals.

(** The white-space code points, one by one. *)
Lemma is_space_codes (c : ascii) :
  is_space c
  = existsb (Nat.eqb (nat_of_ascii c))
      [9; 10; 11; 12; 13; 28; 29; 30; 31; 32; 133; 160].
Proof. destruct c as [[] [] [] [] [] [] [] []]; reflexivity. Qed.

Lemma classify_le (para : Paragraph) : classify para <= 6.
Proof.
  unfold classify. destruct (get_style_name para) as [s|]; [|simpl; lia].
  rewrite heading_level_Some.
  destruct (is_empty s); [lia|apply level_of_name_le].
Qed.

(** [paragraph_to_md] with the marker of every level written out. *)
Lemma paragraph_to_md_markers (para : Paragraph) :
  paragraph_to_md para =
    if is_empty (strip (text para)) then ""
    else match classify para with
         | 0 => strip (text para)
         | 1 => "# " ++ strip (text para)
         | 2 => "## " ++ strip (text para)
         | 3 => "### " ++ strip (text para)
         | 4 => "#### " ++ strip (text para)
         | 5 => "##### " ++ strip (text para)
         | _ => "###### " ++ strip (text para)
         end.
Proof.
  unfold paragraph_to_md. cbv zeta.
  change (heading_level (get_style_name para)) with (classify para).
  destruct (is_empty (strip (text para))); [reflexivity|].
  pose proof (classify_le para) as Hle.
  destruct (classify para) as [|[|[|[|[|[|[|k]]]]]]]; try reflexivity. lia.
Qed.

Lemma paragraph_to_md_trimmed_empty (para : Paragraph) :
  is_empty (paragraph_to_md para) = is_empty (strip (text para)).
Proof.
  rewrite paragraph_to_md_markers.
  destruct (strip (text para)) as [|c r]; [reflexivity|].
  cbn [is_empty].
  now destruct (classify para) as [|[|[|[|[|[|[|k]]]]]]].
Qed.

Lemma paragraph_step_md (para : Paragraph) (lines : list string) :
  paragraph_step para lines =
    Some (tt,
          (lines ++ if is_empty (strip (text para)) then []
                    else [paragraph_to_md para])%list).
Proof.
  rewrite paragraph_step_lines, paragraph_to_md_lines.
  pose proof (paragraph_to_md_trimmed_empty para) as He. now rewrite He.
Qed.

Lemma append_nil_r (s : string) : s ++ "" = s.
Proof. induction s as [|c r IH]; simpl; congruence. Qed.

Lemma concat_repeat (s : string) (n : nat) :
  String.concat "" (List.repeat s n) = repeat_str s n.
Proof.
  induction n as [|n IH]; [reflexivity|].
  cbn [List.repeat repeat_str]. rewrite <- IH.
  destruct n as [|n]; [simpl; now rewrite append_nil_r|reflexivity].
Qed.

(** The separator line, piece by piece. *)
Lemma separator_pieces (n : nat) :
  separator n = String.concat "" ("|" :: List.repeat " --- |" n).
Proof.
  unfold separator. rewrite <- concat_repeat.
  destruct n as [|n]; reflexivity.
Qed.

(** The block of a table with the row lines written out. *)
Lemma table_block_written (table : Table) :
  table_block table =
    match rows table with
    | [] => []
    | row0 :: more =>
        ([""; ("| " ++ String.concat " | " (map cell_md (cells row0))
                ++ " |")%string]
         ++ match more with
            | [] => []
            | _ :: _ => [separator (List.length (cells row0))]
            end
         ++ map (fun row =>
                   ("| " ++ String.concat " | " (map cell_md (cells row))
                      ++ " |")%string) more
         ++ [""])%list
    end.
Proof.
  unfold table_block.
  destruct (rows table) as [|row0 [|row1 more]]; reflexivity.
Qed.

End Literals.

(** * The claims *)

(** ** The style classifier *)

(** C1, as stated, fails.  The style named "Subtitle" contains "title",
    yet the classifier returns level 0 for a paragraph of that style:
    [get_style_name] keeps a label only when it contains "heading" or
    starts with "title", and hands "normal" to [heading_level]
    otherwise. *)
Lemma title_label_counterexample :
  isin "title" (lower "Subtitle") = true
  /\ get_style_name (styled "Subtitle" "Overview") = Some "normal"
  /\ classify (styled "Subtitle" "Overview") = 0
  /\ ~ (forall para label,
          label_of para = Some label ->
          isin "title" (lower label) = true ->
          classify para = 1).
Proof.
  repeat split.
  intros H.
  specialize (H (styled "Subtitle" "Overview") "Subtitle" eq_refl eq_refl).
  discriminate H.
Qed.

(** C1, amended.  For every style label whose lower-cased form contains
    "title", [heading_level] returns 1, whatever "heading N" the label
    also contains; the classifier of a paragraph with that label returns
    1 when the lower-cased label starts with "title" or also contains
    "heading", and 0 otherwise. *)
Theorem classify_title (para : Paragraph) (label : string) :
  label_of para = Some label ->
  isin "title" (lower label) = true ->
  heading_level (Some label) = 1
  /\ classify para =
       if isin "heading" (lower label) || startswith (lower label) "title"
       then 1 else 0.
Proof.
  intros Hlabel Htitle.
  assert (Hne : is_empty label = false).
  { rewrite <- is_empty_lower. exact (isin_nonempty _ _ _ Htitle). }
  assert (Hlevel : level_of_name (lower label) = 1).
  { unfold level_of_name. now rewrite Htitle. }
  split.
  - rewrite heading_level_Some, Hne. exact Hlevel.
  - unfold label_of in Hlabel.
    destruct (style para) as [st|] eqn:Hst; [|discriminate Hlabel].
    rewrite (classify_styled para st Hst). cbv zeta.
    rewrite Hlabel, or_empty_Some, Hlevel. reflexivity.
Qed.

Lemma classify_title_witness :
  label_of (styled "Heading 2 Title" "Scope") = Some "Heading 2 Title"
  /\ isin "title" (lower "Heading 2 Title") = true
  /\ heading_level (Some "Heading 2 Title") = 1
  /\ classify (styled "Heading 2 Title" "Scope") = 1.
Proof.
  split; [reflexivity|]. split; [reflexivity|].
  apply (classify_title (styled "Heading 2 Title" "Scope") "Heading 2 Title");
    reflexivity.
Defined.

(** C3, as stated, fails.  The loop of [heading_level] looks for
    "heading N" with exactly one space and for "headingN": a label with
    two spaces before the digit matches neither and falls to level 2.  A
    label that also contains "title" has level 1, and a label that
    contains two numbered headings has the level of the smaller
    number. *)
Lemma numbered_heading_counterexample :
  (spec_numbered "Heading  3" 3 = true
   /\ heading_level (Some "Heading  3") = 2
   /\ classify (styled "Heading  3" "Details") = 2)
  /\ (isin "heading 3" (lower "Title Heading 3") = true
      /\ heading_level (Some "Title Heading 3") = 1)
  /\ (isin "heading 3" (lower "Heading 2 Heading 3") = true
      /\ heading_level (Some "Heading 2 Heading 3") = 2).
Proof. repeat split. Qed.

(** C3, amended.  For every style label whose lower-cased form does not
    contain "title", and contains "heading N" (one space) or "headingN"
    for some N in 1..9 and for no smaller number of that range, both
    [heading_level] and the classifier of a paragraph with that label
    return min(N, 6); so such a label with N = 3 has level 3, and
    "heading 9" has level 6. *)
Theorem heading_level_numbered (para : Paragraph) (label : string) (N : nat) :
  label_of para = Some label ->
  1 <= N <= 9 ->
  isin "title" (lower label) = false ->
  none_numbered (lower label) (seq 1 (N - 1)) = true ->
  numbered (lower label) N = true ->
  heading_level (Some label) = Nat.min N 6
  /\ classify para = Nat.min N 6
  /\ heading_level (Some "heading 9") = 6.
Proof.
  intros Hlabel HN Htitle Hbefore Hnum.
  pose proof (numbered_isin_heading _ _ Hnum) as Hheading.
  pose proof (level_of_name_numbered _ _ HN Htitle Hbefore Hnum) as Hlevel.
  repeat split.
  - rewrite heading_level_Some.
    rewrite <- is_empty_lower, (isin_nonempty _ _ _ Hheading).
    exact Hlevel.
  - unfold label_of in Hlabel.
    destruct (style para) as [st|] eqn:Hst; [|discriminate Hlabel].
    rewrite (classify_styled para st Hst). cbv zeta.
    rewrite Hlabel, or_empty_Some, Hheading. exact Hlevel.
Qed.

Lemma heading_level_numbered_witness :
  label_of (styled "My HEADING3 style" "Details") = Some "My HEADING3 style"
  /\ 1 <= 3 <= 9
  /\ isin "title" (lower "My HEADING3 style") = false
  /\ none_numbered (lower "My HEADING3 style") (seq 1 (3 - 1)) = true
  /\ numbered (lower "My HEADING3 style") 3 = true
  /\ heading_level (Some "My HEADING3 style") = 3
  /\ classify (styled "My HEADING3 style" "Details") = 3.
Proof.
  split; [reflexivity|]. split; [lia|]. split; [reflexivity|].
  split; [reflexivity|]. split; [reflexivity|].
  destruct (heading_level_numbered
              (styled "My HEADING3 style" "Details") "My HEADING3 style" 3)
    as [H1 [H2 _]]; try reflexivity; [lia|].
  split; [exact H1|exact H2].
Defined.

(** C6.  For every style label that matches neither the title rule nor
    the numbered-heading rule: an absent or empty label has level 0; a
    label that contains "heading" has level 2; any other label has level
    0.  The classifier of a paragraph agrees with [heading_level] on its
    label. *)
Theorem heading_level_fallback (para : Paragraph) :
  isin "title" (lower (or_empty (label_of para))) = false ->
  none_numbered (lower (or_empty (label_of para))) (seq 1 9) = true ->
  heading_level (label_of para) =
    (if is_empty (or_empty (label_of para)) then 0
     else if isin "heading" (lower (or_empty (label_of para))) then 2
     else 0)
  /\ classify para = heading_level (label_of para).
Proof.
  intros Htitle Hnone.
  set (lbl := or_empty (label_of para)) in *.
  assert (Hlevel : level_of_name (lower lbl)
                   = if isin "heading" (lower lbl) then 2 else 0).
  { unfold level_of_name. now rewrite Htitle, (heading_loop_none _ _ Hnone). }
  assert (Hhl : heading_level (label_of para) =
                if is_empty lbl then 0 else level_of_name (lower lbl)).
  { now rewrite heading_level_or_empty, heading_level_Some. }
  split.
  - rewrite Hhl, Hlevel. reflexivity.
  - rewrite Hhl. unfold lbl, label_of in *.
    destruct (style para) as [st|] eqn:Hst.
    + rewrite (classify_styled para st Hst). cbv zeta.
      rewrite (not_isin_not_startswith _ _ Htitle), orb_false_r.
      destruct (or_empty (name st)) as [|c r] eqn:Hname; [reflexivity|].
      cbn [is_empty]. rewrite Hlevel.
      now destruct (isin "heading" (lower (String c r))).
    + now rewrite (classify_unstyled para Hst).
Qed.

Lemma heading_level_fallback_witness :
  isin "title" (lower (or_empty (label_of (styled "Heading" "Notes")))) = false
  /\ none_numbered (lower (or_empty (label_of (styled "Heading" "Notes"))))
       (seq 1 9) = true
  /\ heading_level (label_of (styled "Heading" "Notes")) = 2
  /\ classify (styled "Heading" "Notes") = 2.
Proof.
  split; [reflexivity|]. split; [reflexivity|].
  destruct (heading_level_fallback (styled "Heading" "Notes"))
    as [H1 H2]; try reflexivity.
  split; [exact H1|]. rewrite H2. exact H1.
Defined.

(** ** The document renderer *)

(** C5.  For a paragraph the renderer trims the text: the trimmed text
    is the text less a white-space prefix and a white-space suffix, and
    has no white space at its ends.  It adds nothing to [lines] when the
    trimmed text is empty, which is the case exactly when the text is
    empty or white space only; otherwise it adds one line: the trimmed
    text when the level is 0, and as many "#" as the level (1 to 6), a
    space and the trimmed text when the level is at least 1.  A document
    of paragraphs alone renders as these lines with an empty line
    between them. *)
Theorem paragraph_rendering (para : Paragraph) (lines : list string) :
  paragraph_to_md para =
    (if is_empty (strip (text para)) then ""
     else match classify para with
          | 0 => strip (text para)
          | 1 => "# " ++ strip (text para)
          | 2 => "## " ++ strip (text para)
          | 3 => "### " ++ strip (text para)
          | 4 => "#### " ++ strip (text para)
          | 5 => "##### " ++ strip (text para)
          | _ => "###### " ++ strip (text para)
          end)
  /\ classify para <= 6
  /\ paragraph_step para lines =
       Some (tt,
             (lines ++ if is_empty (strip (text para)) then []
                       else [paragraph_to_md para])%list)
  /\ is_empty (strip (text para)) = all_chars is_space (text para)
  /\ (forall c,
        is_space c
        = existsb (Nat.eqb (nat_of_ascii c))
            [9; 10; 11; 12; 13; 28; 29; 30; 31; 32; 133; 160])
  /\ trimmed (strip (text para)) = true
  /\ (exists pre post,
        text para = pre ++ strip (text para) ++ post
        /\ all_chars is_space pre = true /\ all_chars is_space post = true)
  /\ (forall paras,
        docx_to_md {| paragraphs := paras; tables := [] |}
        = Some (String.concat "

"
                  (flat_map
                     (fun para =>
                        if is_empty (strip (text para)) then []
                        else [paragraph_to_md para])
                     paras))).
Proof.
  split; [apply paragraph_to_md_markers|].
  split; [apply classify_le|].
  split; [apply paragraph_step_md|].
  split; [apply strip_empty|].
  split; [apply is_space_codes|].
  split; [apply strip_trimmed|].
  split; [apply strip_split|].
  intros paras. rewrite docx_to_md_lines. cbn [paragraphs tables flat_map].
  rewrite app_nil_r. unfold join. do 2 f_equal.
  induction paras as [|p rest IH]; [reflexivity|].
  cbn [flat_map]. rewrite IH. f_equal.
  rewrite paragraph_to_md_lines. now rewrite paragraph_to_md_trimmed_empty.
Qed.

Lemma paragraph_rendering_witness :
  paragraph_to_md (styled "Heading 3" "  Deep dive
 ") = "### Deep dive"
  /\ paragraph_step (styled "Heading 3" "  Deep dive
 ") ["intro"]
     = Some (tt, ["intro"; "### Deep dive"])
  /\ paragraph_step (styled "Heading 3" "
  ") ["intro"] = Some (tt, ["intro"])
  /\ docx_to_md
       {| paragraphs := [styled "Heading 6" " Notes "; styled "Normal" "   ";
                         styled "Normal" "Body text "];
          tables := [] |}
     = Some "###### Notes

Body text".
Proof.
  destruct (paragraph_rendering (styled "Heading 3" "  Deep dive
 ") ["intro"]) as [H1 [_ [H3 [_ [_ [_ [_ H8]]]]]]].
  destruct (paragraph_rendering (styled "Heading 3" "
  ") ["intro"]) as [_ [_ [H3' _]]].
  split; [exact H1|]. split; [exact H3|]. split; [exact H3'|].
  exact (H8 [styled "Heading 6" " Notes "; styled "Normal" "   ";
             styled "Normal" "Body text "]).
Defined.

(** C9.  The text of a cell in its row line is the cell's text, less a
    white-space prefix and a white-space suffix, with every newline
    replaced by a space and every other character kept in place.  In
    what a table adds to [lines], and in the output of a document, each
    row is one line: "| ", these cell texts joined by " | ", and " |";
    such a line holds no newline. *)
Theorem cell_text_preserved
  (cell : Cell) (table : Table) (lines : list string) :
  let line := fun row =>
    "| " ++ String.concat " | " (map cell_md (cells row)) ++ " |" in
  let block :=
    match rows table with
    | [] => []
    | row0 :: more =>
        ([""; line row0]
         ++ match more with
            | [] => []
            | _ :: _ => [separator (List.length (cells row0))]
            end
         ++ map line more ++ [""])%list
    end in
  (exists pre post,
     cell_text cell = pre ++ strip (cell_text cell) ++ post
     /\ all_chars is_space pre = true /\ all_chars is_space post = true)
  /\ trimmed (strip (cell_text cell)) = true
  /\ (forall c,
        is_space c
        = existsb (Nat.eqb (nat_of_ascii c))
            [9; 10; 11; 12; 13; 28; 29; 30; 31; 32; 133; 160])
  /\ String.length (cell_md cell) = String.length (strip (cell_text cell))
  /\ (forall i,
        get i (cell_md cell)
        = option_map (fun c => if Ascii.eqb c "010" then " " else c)%char
            (get i (strip (cell_text cell))))
  /\ table_step table lines = Some (tt, (lines ++ block)%list)
  /\ docx_to_md {| paragraphs := []; tables := [table] |}
     = Some (String.concat "

" block)
  /\ Forall (fun row => count_char "010" (line row) = 0) (rows table).
Proof.
  intros line block.
  assert (Hblock : table_block table = block) by apply table_block_written.
  split; [apply strip_split|].
  split; [apply strip_trimmed|].
  split; [apply is_space_codes|].
  split; [apply replace_newlines_length|].
  split; [intros i; apply replace_newlines_get|].
  split; [now rewrite table_step_block, Hblock|].
  split.
  - rewrite docx_to_md_lines. cbn [paragraphs tables flat_map app].
    now rewrite app_nil_r, Hblock.
  - apply Forall_forall. intros row _. exact (row_line_clean row).
Qed.

Lemma cell_text_preserved_witness :
  cell_md {| cell_text := "  per
 item " |} = "per  item"
  /\ table_step (mk_table [["  per
 item "; "x-y"]; [" 1 "; ""; "z"]]) ["intro"]
     = Some (tt, ["intro"; ""; "| per  item | x-y |"; "| --- | --- |";
                  "| 1 |  | z |"; ""])
  /\ docx_to_md
       {| paragraphs := [];
          tables := [mk_table [["  per
 item "; "x-y"]; [" 1 "; ""; "z"]]] |}
     = Some "

| per  item | x-y |

| --- | --- |

| 1 |  | z |

".
Proof.
  destruct (cell_text_preserved
              {| cell_text := "  per
 item " |}
              (mk_table [["  per
 item "; "x-y"]; [" 1 "; ""; "z"]]) ["intro"])
    as [_ [_ [_ [_ [_ [H [H' _]]]]]]].
  split; [reflexivity|]. split; [exact H|exact H'].
Defined.

(** C2, as stated, fails.  A table of one row gets no separator: the
    separator is inserted only when the table has two rows or more. *)
Lemma one_row_table_counterexample :
  table_step (mk_table [["Name"]]) [] = Some (tt, [""; "| Name |"; ""])
  /\ docx_to_md {| paragraphs := []; tables := [mk_table [["Name"]]] |}
     = Some (blank_sep ++ "| Name |" ++ blank_sep)
  /\ ~ (forall table row0 more lines,
          rows table = row0 :: more ->
          exists before after,
            table_step table lines
            = Some (tt, (before ++ row_line row0
                           :: separator (List.length (cells row0))
                           :: after)%list)).
Proof.
  split; [reflexivity|]. split; [reflexivity|].
  intros H.
  destruct (H (mk_table [["Name"]]) (mk_row ["Name"]) [] [] eq_refl)
    as [before [after Heq]].
  assert (Hin : In (separator 1) [""; "| Name |"; ""]).
  { change (table_step (mk_table [["Name"]]) [])
      with (Some (tt, [""; "| Name |"; ""])) in Heq.
    injection Heq as Heq. rewrite Heq.
    apply in_or_app. right. right. left. reflexivity. }
  simpl in Hin. intuition discriminate.
Qed.

(** C2, amended.  For every table with at least two rows, the renderer
    inserts, right after the first row's line, a separator line whose
    column count is the number of cells of the table's first row,
    whatever the cell counts of the other rows; for a table with exactly
    one row it inserts no separator line: the table adds a blank unit,
    the row's line and a blank unit, and nothing else.  The separator
    line is "|" followed by one " --- |" for each column. *)
Theorem separator_after_header
  (table : Table) (row0 : Row) (more : list Row) (lines : list string) :
  rows table = row0 :: more ->
  let line := fun row =>
    "| " ++ String.concat " | " (map cell_md (cells row)) ++ " |" in
  table_step table lines =
    Some (tt,
          (lines ++ [""; line row0]
             ++ match more with
                | [] => []
                | _ :: _ => [separator (List.length (cells row0))]
                end
             ++ map line more ++ [""])%list)
  /\ column_count (separator (List.length (cells row0)))
     = List.length (cells row0)
  /\ separator (List.length (cells row0))
     = String.concat ""
         ("|" :: List.repeat " --- |" (List.length (cells row0))).
Proof.
  intros Hrows line.
  split; [|split; [apply separator_columns|apply separator_pieces]].
  rewrite table_step_block, table_block_written, Hrows. reflexivity.
Qed.

Lemma separator_after_header_witness :
  rows (mk_table [["a"; "b"]; ["c"]; ["d"; "e"; "f"]])
  = mk_row ["a"; "b"] :: [mk_row ["c"]; mk_row ["d"; "e"; "f"]]
  /\ table_step (mk_table [["a"; "b"]; ["c"]; ["d"; "e"; "f"]]) ["intro"]
     = Some (tt, ["intro"; ""; "| a | b |"; "| --- | --- |"; "| c |";
                  "| d | e | f |"; ""])
  /\ column_count "| --- | --- |" = 2
  /\ rows (mk_table [["Name"; "Role"]]) = mk_row ["Name"; "Role"] :: []
  /\ table_step (mk_table [["Name"; "Role"]]) ["intro"]
     = Some (tt, ["intro"; ""; "| Name | Role |"; ""]).
Proof.
  split; [reflexivity|].
  destruct (separator_after_header
              (mk_table [["a"; "b"]; ["c"]; ["d"; "e"; "f"]])
              (mk_row ["a"; "b"]) [mk_row ["c"]; mk_row ["d"; "e"; "f"]]
              ["intro"] eq_refl) as [H1 [H2 _]].
  split; [exact H1|]. split; [exact H2|]. split; [reflexivity|].
  exact (proj1 (separator_after_header
                  (mk_table [["Name"; "Role"]]) (mk_row ["Name"; "Role"]) []
                  ["intro"] eq_refl)).
Defined.

(** C4.  A table of two rows whose first row has three cells adds to
    [lines] a blank unit, the header row line, one separator line of
    three columns, the data row line and a blank unit, and nothing else.
    Rendered alone, the output is two newlines, the header row line, two
    newlines, the separator line, two newlines, the data row line and two
    newlines: each of the three lines, none of which holds a newline, has
    an empty line before it and after it. *)
Theorem table_2x3 (table : Table) (row0 row1 : Row) (lines : list string) :
  rows table = [row0; row1] ->
  List.length (cells row0) = 3 ->
  let line := fun row =>
    "| " ++ String.concat " | " (map cell_md (cells row)) ++ " |" in
  table_step table lines =
    Some (tt,
          (lines ++ [""; line row0; "| --- | --- | --- |"; line row1; ""])%list)
  /\ column_count "| --- | --- | --- |" = 3
  /\ docx_to_md {| paragraphs := []; tables := [table] |} =
       Some ("

" ++ line row0 ++ "

| --- | --- | --- |

"
               ++ line row1 ++ "

")
  /\ count_char "010" (line row0) = 0
  /\ count_char "010" (line row1) = 0.
Proof.
  intros Hrows Hcols line.
  assert (Hblock : table_block table
                   = [""; line row0; "| --- | --- | --- |"; line row1; ""]).
  { unfold table_block. rewrite Hrows, Hcols. reflexivity. }
  split; [|split; [|split; [|split]]].
  - now rewrite table_step_block, Hblock.
  - reflexivity.
  - rewrite docx_to_md_lines. cbn [paragraphs tables flat_map app].
    rewrite Hblock. reflexivity.
  - exact (row_line_clean row0).
  - exact (row_line_clean row1).
Qed.

Lemma table_2x3_witness :
  rows (mk_table [["Id"; "Name"; "Role"]; ["1"; "Ada"; "Lead"]])
  = [mk_row ["Id"; "Name"; "Role"]; mk_row ["1"; "Ada"; "Lead"]]
  /\ List.length (cells (mk_row ["Id"; "Name"; "Role"])) = 3
  /\ table_step (mk_table [["Id"; "Name"; "Role"]; ["1"; "Ada"; "Lead"]]) []
     = Some (tt, [""; "| Id | Name | Role |"; "| --- | --- | --- |";
                  "| 1 | Ada | Lead |"; ""])
  /\ docx_to_md
       {| paragraphs := [];
          tables := [mk_table [["Id"; "Name"; "Role"]; ["1"; "Ada"; "Lead"]]] |}
     = Some "

| Id | Name | Role |

| --- | --- | --- |

| 1 | Ada | Lead |

".
Proof.
  split; [reflexivity|]. split; [reflexivity|].
  destruct (table_2x3
              (mk_table [["Id"; "Name"; "Role"]; ["1"; "Ada"; "Lead"]])
              (mk_row ["Id"; "Name"; "Role"]) (mk_row ["1"; "Ada"; "Lead"]) []
              eq_refl eq_refl) as [H1 [_ [H3 _]]].
  split; [exact H1|exact H3].
Defined.

(** C7.  For every document the renderer returns, and its output is the
    lines of all paragraphs, in order, followed by the blocks of all
    tables, in order, with two newlines, which show as one empty line,
    between any two neighbouring units and nowhere else. *)
Theorem docx_to_md_layout (doc : Document) :
  docx_to_md doc =
    Some (String.concat "

"
            (flat_map paragraph_lines (paragraphs doc)
             ++ flat_map table_block (tables doc))%list)
  /\ (forall unit, join "

" [unit] = unit)
  /\ (forall unit next rest,
        join "

" (unit :: next :: rest)
        = unit ++ "

" ++ join "

" (next :: rest))
  /\ (forall para,
        paragraph_lines para
        = if is_empty (paragraph_to_md para) then []
          else [paragraph_to_md para])
  /\ (forall table lines,
        table_step table lines = Some (tt, (lines ++ table_block table)%list)).
Proof.
  split; [apply docx_to_md_lines|]. split; [reflexivity|].
  split; [reflexivity|].
  split; [apply paragraph_to_md_lines|apply table_step_block].
Qed.

Lemma docx_to_md_layout_witness :
  docx_to_md
    {| paragraphs := [styled "Title" " Plan "; styled "Normal" "  ";
                      styled "Heading 2" "Scope"; styled "Normal" "Body"];
       tables := [mk_table [["a"; "b"]; ["c"; "d"]]; mk_table [];
                  mk_table [["x"]]] |}
  = Some "# Plan

## Scope

Body



| a | b |

| --- | --- |

| c | d |





| x |

".
Proof.
  exact (proj1 (docx_to_md_layout
                  {| paragraphs := [styled "Title" " Plan ";
                                    styled "Normal" "  ";
                                    styled "Heading 2" "Scope";
                                    styled "Normal" "Body"];
                     tables := [mk_table [["a"; "b"]; ["c"; "d"]];
                                mk_table []; mk_table [["x"]]] |})).
Defined.

(** C8.  A table without rows leaves [lines] as it is: no row line, no
    separator and no blank unit; the output of a document does not
    change when such a table is taken out of it. *)
Theorem empty_table_contributes_nothing
  (table : Table) (lines : list string)
  (paras : list Paragraph) (before after : list Table) :
  rows table = [] ->
  table_step table lines = Some (tt, lines)
  /\ docx_to_md {| paragraphs := paras;
                   tables := (before ++ table :: after)%list |}
     = docx_to_md {| paragraphs := paras; tables := (before ++ after)%list |}.
Proof.
  intros Hrows.
  assert (Hblock : table_block table = []).
  { unfold table_block. now rewrite Hrows. }
  split.
  - now rewrite table_step_block, Hblock, app_nil_r.
  - rewrite !docx_to_md_lines. cbn [paragraphs tables].
    rewrite !flat_map_app. cbn [flat_map]. now rewrite Hblock.
Qed.

Lemma empty_table_contributes_nothing_witness :
  rows (mk_table []) = []
  /\ table_step (mk_table []) ["intro"] = Some (tt, ["intro"])
  /\ docx_to_md {| paragraphs := [styled "Normal" "intro"];
                   tables := [mk_table [["a"]]; mk_table [];
                              mk_table [["b"]]] |}
     = docx_to_md {| paragraphs := [styled "Normal" "intro"];
                     tables := [mk_table [["a"]]; mk_table [["b"]]] |}.
Proof.
  split; [reflexivity|].
  apply (empty_table_contributes_nothing
           (mk_table []) ["intro"] [styled "Normal" "intro"]
           [mk_table [["a"]]] [mk_table [["b"]]]).
  reflexivity.
Defined.

(** C10.  A document in which the text of every paragraph is empty or
    white space only and every table has no rows (a document without
    paragraphs and tables included) renders as the empty string. *)
Theorem blank_document_renders_empty (doc : Document) :
  Forall (fun para => all_chars is_space (text para) = true)
    (paragraphs doc) ->
  Forall (fun table => rows table = []) (tables doc) ->
  docx_to_md doc = Some "".
Proof.
  intros Hparas Htables. rewrite docx_to_md_lines.
  assert (Hp : flat_map paragraph_lines (paragraphs doc) = []).
  { induction Hparas as [|para rest Hpara _ IH]; [reflexivity|].
    cbn [flat_map]. rewrite IH. unfold paragraph_lines.
    now rewrite strip_empty, Hpara. }
  assert (Ht : flat_map table_block (tables doc) = []).
  { induction Htables as [|table rest Htable _ IH]; [reflexivity|].
    cbn [flat_map]. rewrite IH. unfold table_block. now rewrite Htable. }
  now rewrite Hp, Ht.
Qed.

Lemma blank_document_renders_empty_witness :
  Forall (fun para => all_chars is_space (text para) = true)
    [styled "Heading 1" "   "; styled "Normal" ""]
  /\ Forall (fun table => rows table = []) [mk_table []]
  /\ docx_to_md {| paragraphs := [styled "Heading 1" "   ";
                                  styled "Normal" ""];
                   tables := [mk_table []] |} = Some "".
Proof.
  split; [repeat constructor|]. split; [repeat constructor|].
  apply (blank_document_renders_empty
           {| paragraphs := [styled "Heading 1" "   "; styled "Normal" ""];
              tables := [mk_table []] |});
    repeat constructor.
Defined.

(** * Further properties of the classifier *)

(** X1.  A heading level is one of 0..6: [heading_level] never returns more
    than 6, whatever the label, and so does the classifier of a
    paragraph. *)
Theorem heading_level_range (style_name : option string) (para : Paragraph) :
  heading_level style_name <= 6 /\ classify para <= 6.
Proof.
  assert (H : forall s, heading_level s <= 6).
  { intros [s|]; [|simpl; lia]. rewrite heading_level_Some.
    destruct (is_empty s); [lia|apply level_of_name_le]. }
  split; [apply H|apply H].
Qed.

(** X2.  A paragraph is classified as a heading (level 1 or more) exactly
    when it has a style whose lower-cased name contains "heading" or
    starts with "title". *)
Theorem classify_heading_iff (para : Paragraph) :
  (1 <=? classify para)%nat =
    match style para with
    | None => false
    | Some st =>
        isin "heading" (lower (or_empty (name st)))
        || startswith (lower (or_empty (name st))) "title"
    end.
Proof.
  destruct (style para) as [st|] eqn:Hst.
  - rewrite (classify_styled para st Hst). cbv zeta.
    destruct (isin "heading" (lower (or_empty (name st)))
              || startswith (lower (or_empty (name st))) "title") eqn:Hkeep.
    + apply Nat.leb_le. now apply level_of_name_kept.
    + reflexivity.
  - now rewrite (classify_unstyled para Hst).
Qed.

(** X3.  The classifier looks at the lower-cased label only: two labels that
    differ in letter case alone get the same style name, the same
    heading level and the same classification. *)
Theorem heading_level_case (a b body : string) :
  lower a = lower b ->
  heading_level (Some a) = heading_level (Some b)
  /\ get_style_name (styled a body) = get_style_name (styled b body)
  /\ classify (styled a body) = classify (styled b body).
Proof.
  intros Hab.
  assert (Hstyle : get_style_name (styled a body)
                   = get_style_name (styled b body)).
  { unfold get_style_name, styled. cbn [style name].
    now rewrite !or_empty_Some, Hab. }
  split; [|split].
  - rewrite !heading_level_Some.
    rewrite <- (is_empty_lower a), <- (is_empty_lower b). now rewrite Hab.
  - exact Hstyle.
  - unfold classify. now rewrite Hstyle.
Qed.

Lemma heading_level_case_witness :
  lower "HEADING 4" = lower "Heading 4"
  /\ heading_level (Some "HEADING 4") = heading_level (Some "Heading 4")
  /\ classify (styled "HEADING 4" "Risks") = classify (styled "Heading 4" "Risks").
Proof.
  split; [reflexivity|].
  destruct (heading_level_case "HEADING 4" "Heading 4" "Risks") as [H1 [_ H3]];
    [reflexivity|].
  split; [exact H1|exact H3].
Defined.

(** X4.  The name that [get_style_name] returns is in normal form: it is
    lower-case, it contains "heading" or starts with "title" or is
    "normal", and a style of that name is given the same name again. *)
Theorem get_style_name_normal_form (para : Paragraph) (n body : string) :
  get_style_name para = Some n ->
  lower n = n
  /\ (isin "heading" n || startswith n "title" || String.eqb n "normal") = true
  /\ get_style_name (styled n body) = Some n.
Proof.
  unfold get_style_name at 1.
  destruct (style para) as [st|]; [|discriminate].
  cbv zeta. set (nm := lower (or_empty (name st))).
  assert (Hnm : lower nm = nm) by apply lower_idem.
  destruct (isin "heading" nm || startswith nm "title") eqn:Hkeep;
    intros H; injection H as <-.
  - split; [exact Hnm|]. split; [now rewrite Hkeep|].
    unfold get_style_name, styled. cbn [style name].
    now rewrite or_empty_Some, Hnm, Hkeep.
  - repeat split.
Qed.

Lemma get_style_name_normal_form_witness :
  get_style_name (styled "My Heading 2" "Scope") = Some "my heading 2"
  /\ lower "my heading 2" = "my heading 2"
  /\ get_style_name (styled "my heading 2" "Goals") = Some "my heading 2".
Proof.
  split; [reflexivity|].
  destruct (get_style_name_normal_form
              (styled "My Heading 2" "Scope") "my heading 2" "Goals")
    as [H1 [_ H3]]; [reflexivity|].
  split; [exact H1|exact H3].
Defined.

(** X5.  The classifier of a paragraph returns what [heading_level] returns
    for the paragraph's own label, with one exception: a label that
    contains "title", does not start with it and does not contain
    "heading" has heading level 1 and is classified 0. *)
Theorem classify_vs_heading_level (para : Paragraph) :
  classify para =
    (if isin "title" (lower (or_empty (label_of para)))
        && negb (startswith (lower (or_empty (label_of para))) "title")
        && negb (isin "heading" (lower (or_empty (label_of para))))
     then 0 else heading_level (label_of para))
  /\ (if isin "title" (lower (or_empty (label_of para)))
      then heading_level (label_of para) = 1 else True).
Proof.
  set (nm := lower (or_empty (label_of para))).
  assert (Hhl : heading_level (label_of para) =
                if is_empty nm then 0 else level_of_name nm).
  { unfold nm. rewrite is_empty_lower, heading_level_or_empty.
    apply heading_level_Some. }
  split.
  - unfold label_of in *.
    destruct (style para) as [st|] eqn:Hst.
    + rewrite (classify_styled para st Hst). cbv zeta. fold nm.
      destruct (isin "heading" nm) eqn:Hh.
      * rewrite andb_false_r. cbn [orb]. rewrite Hhl.
        now rewrite (isin_nonempty _ _ _ Hh).
      * cbn [orb negb]. rewrite andb_true_r.
        destruct (startswith nm "title") eqn:Hs.
        -- rewrite andb_false_r, Hhl.
           apply isin_startswith in Hs.
           now rewrite (isin_nonempty _ _ _ Hs).
        -- cbn [negb]. rewrite andb_true_r.
           destruct (isin "title" nm) eqn:Ht; [reflexivity|].
           rewrite Hhl. destruct (is_empty nm); [reflexivity|].
           now rewrite level_of_name_plain.
    + rewrite (classify_unstyled para Hst). subst nm. simpl. reflexivity.
  - destruct (isin "title" nm) eqn:Ht; [|exact I].
    rewrite Hhl, (isin_nonempty _ _ _ Ht).
    unfold level_of_name. now rewrite Ht.
Qed.

(** * Further properties of the renderer *)

Section Trimming.

Lemma first_char_app (a b : string) :
  first_char (a ++ b)
  = match first_char a with Some c => Some c | None => first_char b end.
Proof. now destruct a. Qed.

Lemma last_char_app (a b : string) :
  last_char (a ++ b)
  = match last_char b with Some c => Some c | None => last_char a end.
Proof.
  induction a as [|x a IH]; simpl.
  - now destruct (last_char b).
  - rewrite IH. destruct (last_char b); [reflexivity|].
    now destruct (last_char a).
Qed.

Lemma lstrip_id (s : string) :
  not_space (first_char s) = true -> lstrip s = s.
Proof.
  destruct s as [|c r]; [reflexivity|].
  simpl. intros H. apply negb_true_iff in H. now rewrite H.
Qed.

Lemma rstrip_id (s : string) :
  not_space (last_char s) = true -> rstrip s = s.
Proof.
  induction s as [|c r IH]; [reflexivity|].
  simpl. destruct (last_char r) as [d|] eqn:Hl.
  - intros H. rewrite (IH H).
    destruct r; [discriminate Hl|reflexivity].
  - apply last_char_none in Hl. subst r. simpl.
    intros H. apply negb_true_iff in H. now rewrite H.
Qed.

(** A trimmed string is left alone by [strip]. *)
Lemma strip_id (s : string) : trimmed s = true -> strip s = s.
Proof.
  unfold trimmed, strip. intros H. apply andb_prop in H as [Hf Hl].
  rewrite (lstrip_id s Hf). now apply rstrip_id.
Qed.

Lemma lstrip_pad (pre s : string) :
  all_chars is_space pre = true -> lstrip (pre ++ s) = lstrip s.
Proof.
  induction pre as [|c r IH]; [reflexivity|].
  simpl. intros H. apply andb_prop in H as [Hc Hr].
  rewrite Hc. now apply IH.
Qed.

Lemma rstrip_pad (s post : string) :
  all_chars is_space post = true -> rstrip (s ++ post) = rstrip s.
Proof.
  intros Hpost. induction s as [|c r IH].
  - simpl. apply is_empty_true. now rewrite rstrip_empty.
  - simpl. now rewrite IH.
Qed.

Lemma strip_pad_right (s post : string) :
  all_chars is_space post = true -> strip (s ++ post) = strip s.
Proof.
  intros Hpost. unfold strip. induction s as [|c r IH].
  - simpl. apply is_empty_true.
    now rewrite rstrip_empty, lstrip_all_space.
  - simpl. destruct (is_space c); [exact IH|].
    exact (rstrip_pad (String c r) post Hpost).
Qed.

(** [strip] does not see white space around a text. *)
Lemma strip_pad (pre s post : string) :
  all_chars is_space pre = true -> all_chars is_space post = true ->
  strip (pre ++ s ++ post) = strip s.
Proof.
  intros Hpre Hpost. rewrite <- (strip_pad_right s post Hpost).
  unfold strip. now rewrite lstrip_pad.
Qed.

Lemma is_space_nl_to_space (c : ascii) :
  is_space (nl_to_space c) = is_space c.
Proof.
  unfold nl_to_space. destruct (Ascii.eqb c newline) eqn:Hc; [|reflexivity].
  apply Ascii.eqb_eq in Hc. now subst c.
Qed.

Lemma first_char_replace (s : string) :
  first_char (replace_newlines s) = option_map nl_to_space (first_char s).
Proof. now destruct s. Qed.

Lemma last_char_replace (s : string) :
  last_char (replace_newlines s) = option_map nl_to_space (last_char s).
Proof.
  induction s as [|c r IH]; [reflexivity|].
  simpl. rewrite IH. now destruct (last_char r).
Qed.

Lemma not_space_nl_to_space (c : option ascii) :
  not_space (option_map nl_to_space c) = not_space c.
Proof.
  destruct c as [c|]; simpl; [|reflexivity].
  now rewrite is_space_nl_to_space.
Qed.

Lemma replace_newlines_trimmed (s : string) :
  trimmed (replace_newlines s) = trimmed s.
Proof.
  unfold trimmed.
  now rewrite first_char_replace, last_char_replace, !not_space_nl_to_space.
Qed.

Lemma nl_to_space_idem (c : ascii) : nl_to_space (nl_to_space c) = nl_to_space c.
Proof.
  unfold nl_to_space. destruct (Ascii.eqb c newline) eqn:Hc.
  - reflexivity.
  - now rewrite Hc.
Qed.

Lemma replace_newlines_idem (s : string) :
  replace_newlines (replace_newlines s) = replace_newlines s.
Proof.
  induction s as [|c r IH]; [reflexivity|].
  simpl. now rewrite nl_to_space_idem, IH.
Qed.

Lemma is_empty_replace (s : string) :
  is_empty (replace_newlines s) = is_empty s.
Proof. now destruct s. Qed.

End Trimming.

(** X6.  A rendered paragraph has no white space at its ends (a heading line
    starts with its marker and ends with the last character of the
    trimmed text), and it is the empty string exactly when the
    paragraph's text is empty or white space only. *)
Theorem paragraph_to_md_trimmed (para : Paragraph) :
  trimmed (paragraph_to_md para) = true
  /\ is_empty (paragraph_to_md para) = all_chars is_space (text para).
Proof.
  unfold paragraph_to_md. cbv zeta.
  pose proof (strip_trimmed (text para)) as Ht.
  rewrite <- strip_empty.
  destruct (strip (text para)) as [|c r] eqn:Hs; [split; reflexivity|].
  cbn [is_empty].
  destruct (heading_level (get_style_name para)) as [|k]; cbn [Nat.leb].
  - split; [exact Ht|reflexivity].
  - split; [|reflexivity].
    unfold trimmed in *. apply andb_prop in Ht as [_ Hl].
    apply andb_true_intro. split; [reflexivity|].
    rewrite last_char_app, last_char_app.
    destruct (last_char (String c r)) as [d|] eqn:Hd; [exact Hl|].
    apply last_char_none in Hd. discriminate Hd.
Qed.

(** X7.  White space around the text of a paragraph or of a cell does not
    change what is rendered for it. *)
Theorem rendering_ignores_padding
  (pre body post : string) (st : option Style) :
  all_chars is_space pre = true ->
  all_chars is_space post = true ->
  paragraph_to_md {| text := pre ++ body ++ post; style := st |}
  = paragraph_to_md {| text := body; style := st |}
  /\ cell_md {| cell_text := pre ++ body ++ post |}
     = cell_md {| cell_text := body |}.
Proof.
  intros Hpre Hpost. split.
  - unfold paragraph_to_md, get_style_name. cbn [text style].
    now rewrite (strip_pad pre body post Hpre Hpost).
  - unfold cell_md. cbn [cell_text].
    now rewrite (strip_pad pre body post Hpre Hpost).
Qed.

(** X8.  The text of a cell in a row line has no white space at its ends and
    no newline, is empty exactly when the cell's text is empty or white
    space only, and is a fixed point of the cell rendering. *)
Theorem cell_md_normal_form (cell : Cell) :
  trimmed (cell_md cell) = true
  /\ count_char newline (cell_md cell) = 0
  /\ is_empty (cell_md cell) = all_chars is_space (cell_text cell)
  /\ cell_md {| cell_text := cell_md cell |} = cell_md cell.
Proof.
  assert (Ht : trimmed (cell_md cell) = true).
  { unfold cell_md. rewrite replace_newlines_trimmed. apply strip_trimmed. }
  split; [exact Ht|]. split; [apply replace_newlines_clean|]. split.
  - unfold cell_md. rewrite is_empty_replace. apply strip_empty.
  - unfold cell_md at 1. cbn [cell_text]. rewrite (strip_id _ Ht).
    unfold cell_md. apply replace_newlines_idem.
Qed.

Lemma rendering_ignores_padding_witness :
  all_chars is_space "  " = true
  /\ all_chars is_space " 
" = true
  /\ paragraph_to_md (styled "Heading 1" "  Goals 
")
     = paragraph_to_md (styled "Heading 1" "Goals")
  /\ paragraph_to_md (styled "Heading 1" "Goals") = "# Goals".
Proof.
  split; [reflexivity|]. split; [reflexivity|].
  split; [|reflexivity].
  apply (rendering_ignores_padding "  " "Goals" " 
" (Some {| name := Some "Heading 1" |})); reflexivity.
Defined.

Section Delimiters.

Lemma count_char_join_sum (c : ascii) (sep : string) (parts : list string) :
  count_char c (join sep parts)
  = list_sum (map (count_char c) parts)
    + (List.length parts - 1) * count_char c sep.
Proof.
  unfold join. induction parts as [|x rest IH]; [reflexivity|].
  destruct rest as [|y rest]; [simpl; lia|].
  change (String.concat sep (x :: y :: rest))
    with (x ++ sep ++ String.concat sep (y :: rest)).
  rewrite !count_char_app, IH.
  cbn [map List.length].
  replace (S (S (List.length rest)) - 1) with (S (List.length rest)) by lia.
  replace (S (List.length rest) - 1) with (List.length rest) by lia.
  unfold list_sum. cbn [fold_right Nat.mul]. lia.
Qed.

Lemma count_pipe_replace (s : string) :
  count_char pipe (replace_newlines s) = count_char pipe s.
Proof.
  induction s as [|c r IH]; [reflexivity|].
  cbn [replace_newlines count_char]. rewrite IH. f_equal.
  unfold nl_to_space. destruct (Ascii.eqb c newline) eqn:Hc; [|reflexivity].
  apply Ascii.eqb_eq in Hc. now subst c.
Qed.

Lemma count_char_strip_le (c : ascii) (s : string) :
  count_char c (strip s) <= count_char c s.
Proof.
  destruct (strip_split s) as [pre [post [Hs _]]].
  rewrite Hs at 2. rewrite !count_char_app. lia.
Qed.

Lemma count_pipe_cell_md (cell : Cell) :
  count_char pipe (cell_text cell) = 0 -> count_char pipe (cell_md cell) = 0.
Proof.
  intros H. unfold cell_md. rewrite count_pipe_replace.
  pose proof (count_char_strip_le pipe (cell_text cell)). lia.
Qed.

Lemma row_line_pipes (row : Row) :
  count_char pipe (row_line row)
  = 2 + (List.length (cells row) - 1)
    + list_sum (map (fun cell => count_char pipe (cell_md cell)) (cells row)).
Proof.
  unfold row_line. rewrite !count_char_app, count_char_join_sum.
  rewrite map_map, length_map.
  change (count_char pipe "| ") with 1.
  change (count_char pipe " | ") with 1.
  change (count_char pipe " |") with 1. lia.
Qed.

End Delimiters.

(** X9.  The column count of a row line is the number of its cells (one for
    a row without cells) plus the number of delimiter characters that the
    cell texts themselves contain: a delimiter inside a cell is not
    escaped and shows as one more column. *)
Theorem row_line_columns (row : Row) :
  column_count (row_line row)
  = Nat.max 1 (List.length (cells row))
    + list_sum (map (fun cell => count_char pipe (cell_md cell)) (cells row)).
Proof.
  unfold column_count. fold pipe. rewrite row_line_pipes. lia.
Qed.

(** X10.  When the first row of a table has at least one cell and no cell
    text of it contains the delimiter, the header line and the separator
    line built from that row have the same column count, the number of
    cells. *)
Theorem header_matches_separator (row : Row) :
  cells row <> [] ->
  Forall (fun cell => count_char pipe (cell_text cell) = 0) (cells row) ->
  column_count (row_line row) = List.length (cells row)
  /\ column_count (row_line row)
     = column_count (separator (List.length (cells row))).
Proof.
  intros Hne Hclean.
  assert (Hsum : list_sum (map (fun cell => count_char pipe (cell_md cell))
                             (cells row)) = 0).
  { clear Hne. induction Hclean as [|cell rest Hcell _ IH]; [reflexivity|].
    cbn [map]. unfold list_sum in *. cbn [fold_right].
    now rewrite IH, (count_pipe_cell_md cell Hcell). }
  assert (Hcols : column_count (row_line row) = List.length (cells row)).
  { rewrite row_line_columns, Hsum.
    destruct (cells row); [congruence|]. cbn [List.length]. lia. }
  split; [exact Hcols|]. now rewrite separator_columns.
Qed.

Lemma header_matches_separator_witness :
  cells (mk_row [" Id "; "Name"]) <> []
  /\ Forall (fun cell => count_char pipe (cell_text cell) = 0)
       (cells (mk_row [" Id "; "Name"]))
  /\ column_count (row_line (mk_row [" Id "; "Name"])) = 2.
Proof.
  split; [discriminate|]. split; [repeat constructor|].
  apply (header_matches_separator (mk_row [" Id "; "Name"]));
    [discriminate|repeat constructor].
Defined.

(** X11.  A table step only adds to the end of [lines]: the lines already
    there are kept, also by the insertion of the separator.  It adds no
    unit for a table without rows, three units for a table of one row,
    and three units more than rows for a larger table. *)
Theorem table_step_size (table : Table) (lines : list string) :
  exists block,
    table_step table lines = Some (tt, (lines ++ block)%list)
    /\ List.length block =
         (if (List.length (rows table) =? 0)%nat then 0
          else if (List.length (rows table) =? 1)%nat then 3
               else List.length (rows table) + 3).
Proof.
  exists (table_block table). split; [apply table_step_block|].
  unfold table_block. destruct (rows table) as [|row0 [|row1 more]].
  - reflexivity.
  - reflexivity.
  - cbn [List.length Nat.eqb app]. rewrite length_app, length_map.
    cbn [List.length]. lia.
Qed.

Section Output.

Lemma append_empty (a b : string) : a ++ b = "" -> a = "" /\ b = "".
Proof. destruct a; simpl; [auto|discriminate]. Qed.

Lemma join_empty (parts : list string) :
  join blank_sep parts = "" -> parts = [] \/ parts = [""].
Proof.
  unfold join. destruct parts as [|x [|y rest]]; simpl.
  - now left.
  - intros ->. now right.
  - intros H. apply append_empty in H as [_ H]. discriminate H.
Qed.

Lemma join_snoc (sep : string) (parts : list string) (x : string) :
  parts <> [] ->
  join sep (parts ++ [x]) = join sep parts ++ sep ++ x.
Proof.
  unfold join. induction parts as [|y rest IH]; [congruence|].
  intros _. destruct rest as [|z rest]; [reflexivity|].
  change (String.concat sep ((y :: z :: rest) ++ [x]))
    with (y ++ sep ++ String.concat sep ((z :: rest) ++ [x])).
  rewrite IH by discriminate.
  change (String.concat sep (y :: z :: rest))
    with (y ++ sep ++ String.concat sep (z :: rest)).
  now rewrite !append_assoc.
Qed.

Lemma paragraph_lines_nonempty (para : Paragraph) (line : string) :
  In line (paragraph_lines para) -> is_empty line = false.
Proof.
  rewrite paragraph_to_md_lines.
  destruct (is_empty (paragraph_to_md para)) eqn:He; simpl; [tauto|].
  intros [<-|[]]. exact He.
Qed.

Lemma paragraph_lines_nil (para : Paragraph) :
  paragraph_lines para = [] -> all_chars is_space (text para) = true.
Proof.
  unfold paragraph_lines. rewrite <- strip_empty.
  destruct (is_empty (strip (text para))); [reflexivity|].
  destruct (1 <=? classify para)%nat; discriminate.
Qed.

(** The block of a table ends with a blank unit after at least two
    other units, unless the table has no rows. *)
Lemma table_block_shape (table : Table) :
  (rows table = [] /\ table_block table = [])
  \/ (exists unit0 unit1 front,
        table_block table = (unit0 :: unit1 :: front ++ [""])%list).
Proof.
  unfold table_block. destruct (rows table) as [|row0 [|row1 more]].
  - now left.
  - right. now exists "", (row_line row0), [].
  - right. exists "", (row_line row0).
    exists (separator (List.length (cells row0)) :: map row_line (row1 :: more)).
    reflexivity.
Qed.

Lemma table_blocks_shape (tables : list Table) :
  (Forall (fun table => rows table = []) tables
   /\ flat_map table_block tables = [])
  \/ (exists unit0 unit1 front,
        flat_map table_block tables = (unit0 :: unit1 :: front ++ [""])%list).
Proof.
  induction tables as [|table rest IH]; [left; now split|].
  cbn [flat_map].
  destruct (table_block_shape table) as [[Hrows ->]|[u0 [u1 [front ->]]]].
  - destruct IH as [[Hall Hnil]|Hblock]; [left|right; exact Hblock].
    split; [now constructor|exact Hnil].
  - right. destruct IH as [[_ ->]|[v0 [v1 [back ->]]]].
    + exists u0, u1, front. now rewrite app_nil_r.
    + exists u0, u1, (front ++ [""] ++ v0 :: v1 :: back)%list.
      cbn [app]. rewrite <- !app_assoc. reflexivity.
Qed.

End Output.

(** X12.  The output is the empty string only for a document in which the text
    of every paragraph is empty or white space only and every table has
    no rows. *)
Theorem empty_output_only_if_blank (doc : Document) :
  docx_to_md doc = Some "" ->
  Forall (fun para => all_chars is_space (text para) = true) (paragraphs doc)
  /\ Forall (fun table => rows table = []) (tables doc).
Proof.
  rewrite docx_to_md_lines. intros H. injection H as H.
  assert (Hp : Forall (fun line => is_empty line = false)
                 (flat_map paragraph_lines (paragraphs doc))).
  { apply Forall_forall. intros line Hin.
    apply in_flat_map in Hin as [para [_ Hin]].
    exact (paragraph_lines_nonempty para line Hin). }
  assert (Hnil : flat_map paragraph_lines (paragraphs doc) = []
                 /\ flat_map table_block (tables doc) = []).
  { apply join_empty in H as [H|H].
    - now apply app_eq_nil in H.
    - destruct (table_blocks_shape (tables doc))
        as [[_ Ht]|[u0 [u1 [front Ht]]]]; rewrite Ht in *.
      + rewrite app_nil_r in H. rewrite H in Hp.
        apply Forall_inv in Hp. discriminate Hp.
      + apply (f_equal (@List.length string)) in H.
        rewrite length_app in H. cbn [List.length] in H.
        rewrite length_app in H. cbn [List.length] in H. lia. }
  destruct Hnil as [Hpn Htn]. split.
  - clear H Hp Htn. induction (paragraphs doc) as [|para rest IH];
      [constructor|].
    cbn [flat_map] in Hpn. apply app_eq_nil in Hpn as [Hpara Hrest].
    constructor; [now apply paragraph_lines_nil|now apply IH].
  - destruct (table_blocks_shape (tables doc))
      as [[Hall _]|[u0 [u1 [front Ht]]]]; [exact Hall|].
    rewrite Ht in Htn. discriminate Htn.
Qed.

Lemma empty_output_only_if_blank_witness :
  docx_to_md {| paragraphs := [styled "Title" " "]; tables := [mk_table []] |}
  = Some ""
  /\ Forall (fun para => all_chars is_space (text para) = true)
       [styled "Title" " "]
  /\ Forall (fun table => rows table = []) [mk_table []].
Proof.
  split; [reflexivity|].
  apply (empty_output_only_if_blank
           {| paragraphs := [styled "Title" " "]; tables := [mk_table []] |}).
  reflexivity.
Defined.

(** X13.  When some table of the document has a row, the output ends with
    two newlines: the blank unit that closes the last table block is the
    last unit joined. *)
Theorem output_ends_blank_after_table (doc : Document) :
  Exists (fun table => rows table <> []) (tables doc) ->
  exists body, docx_to_md doc = Some (body ++ "

").
Proof.
  intros Hex. rewrite docx_to_md_lines.
  destruct (table_blocks_shape (tables doc))
    as [[Hall _]|[u0 [u1 [front Ht]]]].
  - apply Exists_exists in Hex as [table [Hin Hrows]].
    rewrite Forall_forall in Hall. now specialize (Hall table Hin).
  - rewrite Ht.
    exists (join blank_sep
              (flat_map paragraph_lines (paragraphs doc)
               ++ u0 :: u1 :: front)%list).
    f_equal.
    change (u0 :: u1 :: front ++ [""])%list
      with ((u0 :: u1 :: front) ++ [""])%list.
    rewrite app_assoc, join_snoc.
    + reflexivity.
    + intros Hnil. apply app_eq_nil in Hnil as [_ Hnil]. discriminate Hnil.
Qed.

Lemma output_ends_blank_after_table_witness :
  Exists (fun table => rows table <> [])
    (tables {| paragraphs := [styled "Normal" "intro"];
               tables := [mk_table [["a"]]; mk_table []] |})
  /\ (exists body,
        docx_to_md {| paragraphs := [styled "Normal" "intro"];
                      tables := [mk_table [["a"]]; mk_table []] |}
        = Some (body ++ "

"))
  /\ docx_to_md {| paragraphs := [styled "Normal" "intro"];
                   tables := [mk_table [["a"]]; mk_table []] |}
     = Some "intro



| a |

".
Proof.
  assert (H : Exists (fun table => rows table <> [])
                (tables {| paragraphs := [styled "Normal" "intro"];
                           tables := [mk_table [["a"]]; mk_table []] |})).
  { apply Exists_cons_hd. discriminate. }
  split; [exact H|]. split; [|reflexivity].
  exact (output_ends_blank_after_table _ H).
Defined.

(** * Properties of the batch driver *)

Section Replacing.

Variables old new : string.

Lemma length_append (a b : string) :
  String.length (a ++ b) = String.length a + String.length b.
Proof. induction a as [|c a IH]; simpl; [reflexivity|now rewrite IH]. Qed.

Lemma prefix_length (a s : string) :
  prefix a s = true -> String.length a <= String.length s.
Proof.
  revert s. induction a as [|x a IH]; intros s H; simpl; [lia|].
  destruct s as [|y s]; [discriminate H|].
  simpl in H. destruct (ascii_dec x y); [|discriminate H].
  specialize (IH s H). simpl. lia.
Qed.

Lemma isin_cons_false (c : ascii) (r : string) :
  isin old (String c r) = false ->
  prefix old (String c r) = false /\ isin old r = false.
Proof. cbn [isin]. apply orb_false_elim. Qed.

(** Without an occurrence of [old] nothing is replaced. *)
Lemma replace_absent (s : string) :
  isin old s = false -> replace s old new = s.
Proof.
  unfold replace. induction s as [|c r IH]; [reflexivity|].
  intros H. apply isin_cons_false in H as [Hp Hr].
  cbn [replace_from]. rewrite Hp. now rewrite (IH Hr).
Qed.

Hypothesis old_nonempty : 1 <= String.length old.

Lemma replace_from_length (s : string) (k : nat) :
  String.length new <= String.length old ->
  String.length (replace_from old new k s) + Nat.min k (String.length s)
  <= String.length s.
Proof.
  intros Hle. revert k. induction s as [|c r IH]; intros k.
  - simpl. lia.
  - destruct k as [|k]; cbn [replace_from].
    + destruct (prefix old (String c r)) eqn:Hp.
      * apply prefix_length in Hp. cbn [String.length] in *.
        rewrite length_append.
        specialize (IH (String.length old - 1)). lia.
      * specialize (IH 0). cbn [String.length]. lia.
    + specialize (IH k). cbn [String.length]. lia.
Qed.

(** With a [new] shorter than [old], one occurrence makes the result
    shorter. *)
Lemma replace_shorter (s : string) :
  String.length new < String.length old ->
  isin old s = true ->
  String.length (replace s old new) < String.length s.
Proof.
  intros Hlt. unfold replace. induction s as [|c r IH]; intros Hin.
  - cbn [isin] in Hin. rewrite orb_false_r in Hin.
    apply prefix_length in Hin. simpl in Hin. lia.
  - cbn [replace_from]. destruct (prefix old (String c r)) eqn:Hp.
    + apply prefix_length in Hp. cbn [String.length] in *.
      rewrite length_append.
      pose proof (replace_from_length r (String.length old - 1)). lia.
    + cbn [isin] in Hin. rewrite Hp in Hin. cbn [orb] in Hin.
      specialize (IH Hin). cbn [String.length]. lia.
Qed.

End Replacing.

(** The two models of [replace] agree on the pattern of the renderer. *)
Lemma replace_newline_agrees (s : string) :
  replace s (String newline "") " " = replace_newlines s.
Proof.
  unfold replace. induction s as [|c r IH]; [reflexivity|].
  cbn [replace_from replace_newlines prefix String.length Nat.sub].
  unfold nl_to_space. rewrite Ascii.eqb_sym.
  destruct (ascii_dec newline c) as [<-|Hne].
  - rewrite Ascii.eqb_refl.
    replace (prefix "" r) with true by now destruct r.
    simpl. now rewrite IH.
  - apply Ascii.eqb_neq in Hne. rewrite Hne. now rewrite IH.
Qed.

Lemma docx_suffix_overlap (s : string) :
  prefix ".docx" (s ++ ".docx") = true -> s = "" \/ prefix ".docx" s = true.
Proof.
  intros H.
  destruct s as [|c1 [|c2 [|c3 [|c4 [|c5 r]]]]]; [now left|right ..];
    cbn [prefix String.append] in *;
    repeat match type of H with
           | context [ascii_dec ?a ?b] =>
               destruct (ascii_dec a b); [|discriminate H]
           end;
    try congruence.
  now destruct r.
Qed.

(** X14.  The output name of an input name.  A name without ".docx" is its own
    output name, so [main] would write the Markdown over the input; a
    name that contains ".docx" gets a shorter, hence different, output
    name. *)
Theorem md_name_cases (name : string) :
  if isin ".docx" name
  then String.length (md_name name) < String.length name
       /\ md_name name <> name
  else md_name name = name.
Proof.
  unfold md_name. destruct (isin ".docx" name) eqn:Hin.
  - assert (Hlt : String.length (replace name ".docx" ".md")
                  < String.length name).
    { apply replace_shorter; [simpl; lia|simpl; lia|exact Hin]. }
    split; [exact Hlt|]. intros Heq. rewrite Heq in Hlt. lia.
  - now apply replace_absent.
Qed.

(** X15.  A name that ends in ".docx", with no ".docx" before that, gets the
    name with ".md" in place of the ending. *)
Theorem md_name_suffix (stem : string) :
  isin ".docx" stem = false ->
  md_name (stem ++ ".docx") = stem ++ ".md".
Proof.
  unfold md_name, replace. induction stem as [|c r IH]; [reflexivity|].
  intros H. apply isin_cons_false in H as [Hp Hr].
  change (String c r ++ ".docx") with (String c (r ++ ".docx")).
  cbn [replace_from].
  destruct (prefix ".docx" (String c (r ++ ".docx"))) eqn:Hq.
  - apply (docx_suffix_overlap (String c r)) in Hq as [Hq|Hq];
      [discriminate Hq|congruence].
  - now rewrite (IH Hr).
Qed.

Lemma md_name_suffix_witness :
  isin ".docx" "notes.doc" = false
  /\ md_name ("notes.doc" ++ ".docx") = "notes.doc" ++ ".md".
Proof.
  split; [reflexivity|]. apply (md_name_suffix "notes.doc"). reflexivity.
Defined.

Section MainFacts.

Variable open_docx : string -> option Document.


Lemma main_body_outcome (name : string) (w : World) :
  main_body open_docx name w =
    match lookup name (files w) with
    | None => (Returned, print ("Skip (not found): " ++ name) w)
    | Some bytes =>
        match render_bytes open_docx bytes with
        | Some md =>
            (Returned,
             print ("Created: " ++ md_name name)
               (write_text (md_name name) md w))
        | None => (Raised, w)
        end
    end.
Proof.
  unfold main_body, render_bytes.
  destruct (lookup name (files w)) as [bytes|]; [|reflexivity].
  destruct (open_docx bytes) as [doc|]; [|reflexivity].
  now destruct (docx_to_md doc).
Qed.


Lemma main_loop_app (before after : list string) (w : World) :
  main_loop open_docx (before ++ after) w =
    match main_loop open_docx before w with
    | (Returned, w') => main_loop open_docx after w'
    | (Raised, w') => (Raised, w')
    end.
Proof.
  revert w. induction before as [|name rest IH]; intros w; [reflexivity|].
  cbn [app main_loop].
  destruct (main_body open_docx name w) as [[|] w']; [apply IH|reflexivity].
Qed.



End MainFacts.



(** X17.  An input that is present and does not open makes the batch raise at
    that input: what was written and printed for the names before it
    stays, and no later name is looked at. *)
Theorem main_aborts
  (open_docx : string -> option Document)
  (before after : list string) (bad bytes : string) (w w1 : World) :
  main_loop open_docx before w = (Returned, w1) ->
  lookup bad (files w1) = Some bytes ->
  open_docx bytes = None ->
  main_loop open_docx (before ++ bad :: after) w = (Raised, w1).
Proof.
  intros Hbefore Hlook Hopen.
  rewrite main_loop_app, Hbefore. cbn [main_loop].
  rewrite main_body_outcome, Hlook. unfold render_bytes.
  now rewrite Hopen.
Qed.

Lemma main_aborts_witness :
  main_loop sample_reader ["a.docx"]
    {| files := [("a.docx", "PK-hello"); ("b.docx", "not a package");
                 ("c.docx", "PK-hello")];
       stdout := [] |}
  = (Returned,
     {| files := [("a.md", "# Hello"); ("a.docx", "PK-hello");
                  ("b.docx", "not a package"); ("c.docx", "PK-hello")];
        stdout := ["Created: a.md"] |})
  /\ main_loop sample_reader (["a.docx"] ++ "b.docx" :: ["c.docx"])
       {| files := [("a.docx", "PK-hello"); ("b.docx", "not a package");
                    ("c.docx", "PK-hello")];
          stdout := [] |}
     = (Raised,
        {| files := [("a.md", "# Hello"); ("a.docx", "PK-hello");
                     ("b.docx", "not a package"); ("c.docx", "PK-hello")];
           stdout := ["Created: a.md"] |}).
Proof.
  split; [reflexivity|].
  apply (main_aborts sample_reader ["a.docx"] ["c.docx"] "b.docx"
           "not a package"); reflexivity.
Defined.

Section MainFrame.

Variable open_docx : string -> option Document.

Lemma main_body_frame (name n : string) (w : World) :
  String.eqb n (md_name name) = false ->
  lookup n (files (snd (main_body open_docx name w))) = lookup n (files w).
Proof.
  intros Hn. rewrite main_body_outcome.
  destruct (lookup name (files w)) as [bytes|]; [|reflexivity].
  destruct (render_bytes open_docx bytes) as [md|]; [|reflexivity].
  cbn [snd print write_text files lookup]. now rewrite Hn.
Qed.

Lemma main_body_stdout (name : string) (w : World) :
  match fst (main_body open_docx name w) with
  | Returned =>
      exists line, stdout (snd (main_body open_docx name w))
                   = (stdout w ++ [line])%list
  | Raised => snd (main_body open_docx name w) = w
  end.
Proof.
  rewrite main_body_outcome.
  destruct (lookup name (files w)) as [bytes|]; [|now eexists].
  destruct (render_bytes open_docx bytes) as [md|]; [now eexists|reflexivity].
Qed.

End MainFrame.

(** X18.  A batch changes the directory under the output names of its inputs
    only: every other name holds after the run what it held before,
    whether the batch returns or raises. *)
Theorem main_loop_frame
  (open_docx : string -> option Document)
  (names : list string) (n : string) (w : World) :
  existsb (String.eqb n) (map md_name names) = false ->
  lookup n (files (snd (main_loop open_docx names w))) = lookup n (files w).
Proof.
  revert w. induction names as [|name rest IH]; intros w Hn; [reflexivity|].
  cbn [map existsb] in Hn. apply orb_false_elim in Hn as [Hname Hrest].
  cbn [main_loop].
  pose proof (main_body_frame open_docx name n w Hname) as Hbody.
  destruct (main_body open_docx name w) as [[|] w']; cbn [snd] in *.
  - now rewrite (IH w' Hrest).
  - exact Hbody.
Qed.

Lemma main_loop_frame_witness :
  existsb (String.eqb "a.docx") (map md_name ["a.docx"; "b.docx"]) = false
  /\ lookup "a.docx"
       (files (snd (main_loop sample_reader ["a.docx"; "b.docx"]
                      {| files := [("a.docx", "PK-hello")]; stdout := [] |})))
     = Some "PK-hello".
Proof.
  split; [reflexivity|].
  apply (main_loop_frame sample_reader ["a.docx"; "b.docx"] "a.docx"
           {| files := [("a.docx", "PK-hello")]; stdout := [] |}).
  reflexivity.
Defined.

(** X19.  [main] leaves its three input files as they are, in every directory
    and with every reader, whether it returns or raises. *)
Theorem main_keeps_inputs
  (open_docx : string -> option Document) (w : World) :
  Forall (fun name =>
            lookup name (files (snd (main open_docx w)))
            = lookup name (files w))
    main_names.
Proof.
  unfold main. repeat constructor; apply main_loop_frame; reflexivity.
Qed.

(** X20.  A batch only adds lines to standard output: one line for each name
    when it returns, and fewer lines than names when it raises. *)
Theorem main_loop_prints
  (open_docx : string -> option Document) (names : list string) (w : World) :
  exists out,
    stdout (snd (main_loop open_docx names w)) = (stdout w ++ out)%list
    /\ match fst (main_loop open_docx names w) with
       | Returned => List.length out = List.length names
       | Raised => List.length out < List.length names
       end.
Proof.
  revert w. induction names as [|name rest IH]; intros w.
  - exists []. simpl. now rewrite app_nil_r.
  - cbn [main_loop].
    pose proof (main_body_stdout open_docx name w) as Hbody.
    destruct (main_body open_docx name w) as [[|] w']; cbn [fst snd] in *.
    + destruct Hbody as [line Hline].
      destruct (IH w') as [out [Hout Hlen]].
      exists (line :: out). split.
      * rewrite Hout, Hline. now rewrite <- app_assoc.
      * destruct (fst (main_loop open_docx rest w'));
          cbn [List.length]; lia.
    + exists []. subst w'. split; [now rewrite app_nil_r|simpl; lia].
Qed.
